(** * chatgpt.py: a terminal wrapper around a remote chat API

    A shallow embedding of [src/chatgpt.py] and the properties of its
    history store, prompt resolution, interactive loop and one-shot path.

    Conventions of the model.
    - A Python [str] is a [string]; the character numbered [n] stands for
      the code point U+00[n], so the model covers text in U+0000..U+00FF.
    - A Python value that [json.loads] can return is a [pyval].
    - Python code that performs I/O or may raise is a computation in the
      monad [M]: it takes the state of the [world], gives an [outcome]
      (a value, or the exception raised) and the new state of the world.
    - The world holds the history file and the trace of the I/O actions
      taken so far, oldest first.
    - The standard library's JSON codec, the remote service, the disk and
      the encoding of the standard output are outside the repository:
      they are the variables of the section [Program].  What the history
      path looks like to a reader is its [file_state]; how an operation
      that changes it ends ([write_text], [unlink]) is for the oracles
      [disk] and [removable] to say, which stand for the permissions and
      the space of the file system.
    - The standard input delivers text, and the standard streams take
      what is written to them; the one failure of printing in the model
      is that of an answer the standard output cannot encode. *)

From Stdlib Require Import List String Ascii ZArith Bool Arith Lia
    DecimalString.
Import ListNotations.
Local Open Scope string_scope.
Local Open Scope list_scope.
Set Warnings "-register-all".

(** ** Python values *)

Inductive pyval : Type :=
| PNone
| PBool (b : bool)
| PInt (n : Z)
| PFloat (repr : string)          (* a float, carried by its repr *)
| PStr (s : string)
| PList (items : list pyval)
| PDict (items : list (string * pyval)).   (* insertion-ordered *)

(** The dict literal [{"role": role, "content": content}]. *)
Definition turn (role content : string) : pyval :=
  PDict [("role", PStr role); ("content", PStr content)].

(** ** Exceptions and outcomes *)

Inductive exn : Type :=
| SystemExit (code : Z)
| EOFError
| AttributeError
| OSError
| JSONDecodeError
| TypeError
| UnicodeEncodeError
| APIError.

(** [except Exception] catches every exception class but the ones that
    derive from [BaseException] only; of those the program raises
    [SystemExit]. *)
Definition is_Exception (e : exn) : bool :=
  match e with
  | SystemExit _ => false
  | _ => true
  end.

Definition is_EOFError (e : exn) : bool :=
  match e with
  | EOFError => true
  | _ => false
  end.

Inductive outcome (A : Type) : Type :=
| Ret (a : A)
| Raise (e : exn).
Arguments Ret {A} a.
Arguments Raise {A} e.

(** The status the process ends with: 0 when [main] returns, the code of
    [sys.exit], and 1 for an exception nobody caught. *)
Definition exit_status {A : Type} (r : outcome A) : Z :=
  match r with
  | Ret _ => 0
  | Raise (SystemExit code) => code
  | Raise _ => 1
  end.

(** ** The world *)

Inductive file_state : Type :=
| Missing                       (* HISTORY_PATH does not exist *)
| Text (contents : string)      (* a file that reads back as [contents] *)
| Unreadable                    (* exists, but [read_text] raises *)
| Inaccessible.                 (* [stat] fails with an error that [exists]
                                   lets through: no search permission on
                                   the directory, a name too long, ... *)

(** How [write_text] ends.  It opens the file for writing, which empties
    it, writes and closes: the open may fail and leave the file as it
    was; the write may fail after the open and leave a prefix of the data
    (often nothing). *)
Inductive write_result : Type :=
| Written
| NotOpened
| Broken (kept : nat).

Inductive event : Type :=
| E_isatty                               (* sys.stdin.isatty() *)
| E_stdin_read                           (* sys.stdin.read() *)
| E_input (prompt : string)              (* input(prompt) *)
| E_print (text : string)                (* print(text) *)
| E_print_err (text : string)            (* print(text, file=sys.stderr) *)
| E_exists                               (* HISTORY_PATH.exists() *)
| E_read_text                            (* HISTORY_PATH.read_text(...) *)
| E_write_text (data : string)           (* HISTORY_PATH.write_text(data, ...) *)
| E_unlink                               (* HISTORY_PATH.unlink(missing_ok=True) *)
| E_OpenAI                               (* OpenAI() *)
| E_create (model : string) (input : pyval).  (* client.responses.create(...) *)

Record world : Type := mkWorld {
  w_file : file_state;
  w_trace : list event
}.

Definition log (e : event) (w : world) : world :=
  mkWorld (w_file w) (w_trace w ++ [e]).

Definition set_file (f : file_state) (w : world) : world :=
  mkWorld f (w_trace w).

Definition is_create (e : event) : bool :=
  match e with
  | E_create _ _ => true
  | _ => false
  end.

Definition is_write_text (e : event) : bool :=
  match e with
  | E_write_text _ => true
  | _ => false
  end.

Definition is_unlink (e : event) : bool :=
  match e with
  | E_unlink => true
  | _ => false
  end.

(** The events of a trace that report something to the user. *)
Definition is_report (e : event) : bool :=
  match e with
  | E_print _ | E_print_err _ => true
  | _ => false
  end.

(** How many remote calls, how many writes of the history file and how
    many unlinks a trace holds. *)
Definition count_creates (t : list event) : nat :=
  List.length (filter is_create t).

Definition count_writes (t : list event) : nat :=
  List.length (filter is_write_text t).

Definition count_unlinks (t : list event) : nat :=
  List.length (filter is_unlink t).

(** What starts the program: [sys.argv], [os.environ], and the standard
    input, as the lines it will deliver. *)
Record invocation : Type := mkInvocation {
  sys_argv : list string;
  environ : string -> option string;
  stdin_isatty : bool;
  stdin_lines : list string
}.

(** ** The monad of effectful code *)

Definition M (A : Type) : Type := world -> outcome A * world.

Definition ret {A : Type} (a : A) : M A := fun w => (Ret a, w).

Definition raise {A : Type} (e : exn) : M A := fun w => (Raise e, w).

Definition bind {A B : Type} (m : M A) (k : A -> M B) : M B :=
  fun w =>
    match m w with
    | (Ret a, w') => k a w'
    | (Raise e, w') => (Raise e, w')
    end.

(** [try: m  except <catches>: handler]. *)
Definition try_except {A : Type} (m : M A) (catches : exn -> bool)
    (handler : M A) : M A :=
  fun w =>
    match m w with
    | (Ret a, w') => (Ret a, w')
    | (Raise e, w') => if catches e then handler w' else (Raise e, w')
    end.

Definition lift {A : Type} (r : outcome A) : M A := fun w => (r, w).

Definition emit (e : event) : M unit := fun w => (Ret tt, log e w).

Declare Scope py_scope.
Delimit Scope py_scope with py.
Notation "x <- m ;; k" := (bind m (fun x => k))
  (at level 61, m at next level, right associativity) : py_scope.
Notation "m ;; k" := (bind m (fun _ => k))
  (at level 61, right associativity) : py_scope.
Local Open Scope py_scope.

(** ** Strings *)

(** [str.isspace] on one character, in U+0000..U+00FF. *)
Definition isspace (c : ascii) : bool :=
  let n := nat_of_ascii c in
  (((9 <=? n) && (n <=? 13)) || ((28 <=? n) && (n <=? 32))
   || (n =? 133) || (n =? 160))%nat.

Fixpoint lstrip (s : string) : string :=
  match s with
  | EmptyString => EmptyString
  | String c s' => if isspace c then lstrip s' else s
  end.

Fixpoint rstrip (s : string) : string :=
  match s with
  | EmptyString => EmptyString
  | String c s' =>
      match rstrip s' with
      | EmptyString => if isspace c then EmptyString else String c EmptyString
      | r => String c r
      end
  end.

(** [s.strip()] *)
Definition strip (s : string) : string := rstrip (lstrip s).

(** *** Trimming, as the specification words it

    The specification speaks of text trimmed of surrounding whitespace.
    The definitions below say that without [lstrip], [rstrip] or
    [isspace]: the whitespace characters are listed one by one, and [p]
    is [s] trimmed when [s] is [p] between two runs of whitespace and [p]
    neither begins nor ends with a whitespace character. *)

(** The whitespace characters of U+0000..U+00FF: tab, line feed,
    vertical tab, form feed, carriage return, the four separators
    U+001C..U+001F, the space, NEL (U+0085) and the no-break space. *)
Definition whitespace_chars : list ascii :=
  map ascii_of_nat [9; 10; 11; 12; 13; 28; 29; 30; 31; 32; 133; 160]%nat.

Definition is_whitespace (c : ascii) : Prop := In c whitespace_chars.

(** Every character of [s] is whitespace. *)
Definition blank (s : string) : Prop :=
  Forall is_whitespace (list_ascii_of_string s).

Definition first_char (s : string) : option ascii :=
  match s with
  | EmptyString => None
  | String c _ => Some c
  end.

Fixpoint last_char (s : string) : option ascii :=
  match s with
  | EmptyString => None
  | String c EmptyString => Some c
  | String _ rest => last_char rest
  end.

(** [p] has no whitespace at either end. *)
Definition tight (p : string) : Prop :=
  (forall c, first_char p = Some c -> ~ is_whitespace c)
  /\ (forall c, last_char p = Some c -> ~ is_whitespace c).

(** [p] is [s] trimmed of surrounding whitespace. *)
Definition trimmed_of (s p : string) : Prop :=
  exists lead trail,
    s = String.append lead (String.append p trail)
    /\ blank lead /\ blank trail /\ tight p.

(** [str.lower] on one character, in U+0000..U+00FF: the letters A-Z and
    the capital letters of U+00C0..U+00DE (U+00D7 is the multiplication
    sign) move up by 32. *)
Definition lower_char (c : ascii) : ascii :=
  let n := nat_of_ascii c in
  if (((65 <=? n) && (n <=? 90))
      || ((192 <=? n) && (n <=? 222) && negb (n =? 215)))%nat
  then ascii_of_nat (n + 32)
  else c.

(** [s.lower()] *)
Fixpoint lower (s : string) : string :=
  match s with
  | EmptyString => EmptyString
  | String c s' => String (lower_char c) (lower s')
  end.

Definition newline : string := String (ascii_of_nat 10) EmptyString.

Definition dquote : string := String (ascii_of_nat 34) EmptyString.

(** A character of ASCII: its highest bit is clear. *)
Definition is_ascii (c : ascii) : bool :=
  match c with
  | Ascii _ _ _ _ _ _ _ b7 => negb b7
  end.

Fixpoint all_ascii (s : string) : bool :=
  match s with
  | EmptyString => true
  | String c rest => is_ascii c && all_ascii rest
  end.

(** [sep.join(parts)] *)
Definition join (sep : string) (parts : list string) : string :=
  String.concat sep parts.


(** [not s] for a string. *)
Definition is_empty (s : string) : bool :=
  match s with
  | EmptyString => true
  | String _ _ => false
  end.

(** Everything the standard input holds: each line with its newline. *)
Definition stdin_contents (inv : invocation) : string :=
  String.concat "" (map (fun l => String.append l newline) (stdin_lines inv)).

(** The command-line arguments, [sys.argv[1:]]. *)
Definition arguments (inv : invocation) : list string :=
  skipn 1 (sys_argv inv).

(** ** Lists *)

(** [l[-n:]] for [n > 0]. *)
Definition last_n {A : Type} (n : nat) (l : list A) : list A :=
  skipn (List.length l - n) l.

(** [history.append(x)]: only a list has the method. *)
Definition py_append (history x : pyval) : outcome (list pyval) :=
  match history with
  | PList items => Ret (items ++ [x])
  | _ => Raise AttributeError
  end.

(** ** The program *)

Definition MODEL_DEFAULT : string := "gpt-4.1-mini".

(** The body of [while True] in [repl] ends in [continue] (or falls
    through to the next round) or in [break]; either way the list object
    [history] is left with some contents. *)
Inductive control : Type :=
| Continue (history : pyval)
| Break (history : pyval).

Section Program.

(** [json.loads(s)]: [None] when it raises. *)
Variable json_loads : string -> option pyval.

(** [json.dumps(v, indent=2)]: [None] when it raises. *)
Variable json_dumps : pyval -> option string.

(** [client.responses.create(model=m, input=v).output_text] for the
    call made after [n] earlier ones: [None] when the call raises. *)
Variable create : nat -> string -> pyval -> option string.

(** How the write of the history file made after [n] earlier ones
    ends. *)
Variable disk : nat -> write_result.

(** Whether the unlink of an existing history path made after [n]
    earlier ones succeeds (it does not for a directory, or without write
    permission on the directory). *)
Variable removable : nat -> bool.

(** Which characters beyond ASCII the encoding of the standard output can
    encode. *)
Variable stdout_encodes : ascii -> bool.

(** *** The primitives the program calls *)

(** Whether the standard output can encode [text]: every encoding takes
    ASCII. *)
Fixpoint encodable (text : string) : bool :=
  match text with
  | EmptyString => true
  | String c rest => (is_ascii c || stdout_encodes c) && encodable rest
  end.

(** [print(text)]: the text is encoded before anything is written, so a
    text the standard output cannot encode raises and prints nothing. *)
Definition print (text : string) : M unit :=
  fun w =>
    if encodable text
    then (Ret tt, log (E_print text) w)
    else (Raise UnicodeEncodeError, w).

(** [print(text, file=sys.stderr)]: the error stream replaces what it
    cannot encode by escapes. *)
Definition print_err (text : string) : M unit := emit (E_print_err text).

Definition sys_exit {A : Type} (code : Z) : M A := raise (SystemExit code).

(** [HISTORY_PATH.exists()]: an error of [stat] other than that of a
    missing path is raised again. *)
Definition path_exists : M bool :=
  fun w =>
    (match w_file w with
     | Missing => Ret false
     | Inaccessible => Raise OSError
     | _ => Ret true
     end,
     log E_exists w).

Definition read_text : M string :=
  fun w =>
    (match w_file w with Text s => Ret s | _ => Raise OSError end,
     log E_read_text w).

Definition write_text (data : string) : M unit :=
  fun w =>
    match disk (count_writes (w_trace w)) with
    | Written => (Ret tt, set_file (Text data) (log (E_write_text data) w))
    | NotOpened => (Raise OSError, log (E_write_text data) w)
    | Broken kept =>
        (Raise OSError,
         set_file (Text (substring 0 kept data)) (log (E_write_text data) w))
    end.

(** [HISTORY_PATH.unlink(missing_ok=True)]: only the error of a missing
    path is suppressed. *)
Definition unlink_missing_ok : M unit :=
  fun w =>
    match w_file w with
    | Missing => (Ret tt, log E_unlink w)
    | _ =>
        if removable (count_unlinks (w_trace w))
        then (Ret tt, set_file Missing (log E_unlink w))
        else (Raise OSError, log E_unlink w)
    end.

Definition loads (s : string) : M pyval :=
  lift (match json_loads s with
        | Some v => Ret v
        | None => Raise JSONDecodeError
        end).

Definition dumps (v : pyval) : M string :=
  lift (match json_dumps v with
        | Some s => Ret s
        | None => Raise TypeError
        end).

Definition OpenAI : M unit := emit E_OpenAI.

Definition responses_create (model : string) (input : pyval) : M string :=
  fun w =>
    (match create (count_creates (w_trace w)) model input with
     | Some text => Ret text
     | None => Raise APIError
     end,
     log (E_create model input) w).

(** [input(prompt)] when the terminal delivers [line], or the end of
    the input for [None]. *)
Definition input (prompt : string) (line : option string) : M string :=
  fun w =>
    (match line with Some l => Ret l | None => Raise EOFError end,
     log (E_input prompt) w).

Definition isatty (inv : invocation) : M bool :=
  emit E_isatty ;; ret (stdin_isatty inv).

(** [sys.stdin.read()] *)
Definition stdin_read (inv : invocation) : M string :=
  emit E_stdin_read ;;
  ret (stdin_contents inv).

(** [os.getenv(name)] and [os.getenv(name, default)]. *)
Definition getenv (inv : invocation) (name : string) : option string :=
  environ inv name.

Definition getenv_default (inv : invocation) (name default : string) : string :=
  match environ inv name with
  | Some v => v
  | None => default
  end.

(** [not v] for the result of [os.getenv]. *)
Definition not_set (v : option string) : bool :=
  match v with
  | None => true
  | Some s => is_empty s
  end.

(** *** chatgpt.py *)

Definition load_history : M pyval :=
  b <- path_exists ;;
  if b
  then try_except (s <- read_text ;; loads s)
                  is_Exception
                  (ret (PList []))
  else ret (PList []).

Definition save_history (history : pyval) : M unit :=
  try_except (s <- dumps history ;; write_text s)
             is_Exception
             (ret tt).

Definition get_prompt_from_args_or_stdin (inv : invocation) : M string :=
  if (1 <? List.length (sys_argv inv))%nat
  then ret (strip (join " " (arguments inv)))
  else
    tty <- isatty inv ;;
    if negb tty
    then (s <- stdin_read inv ;; ret (strip s))
    else ret "".

(** One round of [while True]; [line] is what [input] delivers. *)
Definition repl_iteration (line : option string) (history : pyval)
    (model : string) : M control :=
  p <- try_except (l <- input "> " line ;; ret (Some (strip l)))
                  is_EOFError
                  (print "" ;; ret None) ;;
  match p with
  | None => ret (Break history)
  | Some prompt =>
      if is_empty prompt
      then ret (Continue history)
      else if existsb (String.eqb (lower prompt)) ["exit"; "quit"]
      then ret (Break history)
      else
        h1 <- lift (py_append history (turn "user" prompt)) ;;
        let h2 := last_n 60 h1 in
        text <- responses_create model (PList h2) ;;
        let answer := strip text in
        print answer ;;
        print "" ;;
        let h3 := h2 ++ [turn "assistant" answer] in
        save_history (PList h3) ;;
        ret (Continue (PList h3))
  end.

(** The loop of [repl] over the lines the terminal still delivers; it
    gives the contents [history] is left with. *)
Fixpoint repl_loop (lines : list string) (history : pyval)
    (model : string) : M pyval :=
  match lines with
  | [] =>
      (* the end of the input: the round can only break *)
      c <- repl_iteration None history model ;;
      match c with
      | Break h => ret h
      | Continue h => ret h
      end
  | line :: rest =>
      c <- repl_iteration (Some line) history model ;;
      match c with
      | Break h => ret h
      | Continue h => repl_loop rest h model
      end
  end.

Definition repl (inv : invocation) (history : pyval) (model : string)
    : M pyval :=
  print "Welcome to the terminal of GPT (to quit -> 'exit')" ;;
  repl_loop (stdin_lines inv) history model.

Definition main (inv : invocation) : M unit :=
  let api_key := getenv inv "OPENAI_API_KEY" in
  if not_set api_key
  then
    print_err "Error: OPENAI_API_KEY is not set." ;;
    print_err "Set it with: export OPENAI_API_KEY='sk-...'" ;;
    sys_exit 1
  else
    let model := getenv_default inv "OPENAI_MODEL" MODEL_DEFAULT in
    prompt <- get_prompt_from_args_or_stdin inv ;;
    if String.eqb prompt "--reset"
    then
      unlink_missing_ok ;;
      print "History cleared."
    else
      OpenAI ;;
      interactive <- (if is_empty prompt then isatty inv else ret false) ;;
      if interactive
      then
        history <- load_history ;;
        repl inv history model ;;
        ret tt
      else if is_empty prompt
      then
        print_err "Usage:" ;;
        print_err (String.concat dquote ["  chatgpt "; "Your question here";
            ""]) ;;
        print_err "  chatgpt explain bfs" ;;
        print_err "  cat file.txt | chatgpt" ;;
        print_err "  chatgpt --reset" ;;
        sys_exit 2
      else
        history <- load_history ;;
        h1 <- lift (py_append history (turn "user" prompt)) ;;
        let h2 := last_n 60 h1 in
        text <- responses_create model (PList h2) ;;
        let answer := strip text in
        print answer ;;
        let h3 := h2 ++ [turn "assistant" answer] in
        save_history (PList h3).

(** The two ways [main] ends once the prompt is known, named for the
    statements below: the one-shot path (its last statements, from
    [history = load_history()] on) and the interactive path. *)
Definition one_shot_path (prompt model : string) : M unit :=
  history <- load_history ;;
  h1 <- lift (py_append history (turn "user" prompt)) ;;
  let h2 := last_n 60 h1 in
  text <- responses_create model (PList h2) ;;
  let answer := strip text in
  print answer ;;
  let h3 := h2 ++ [turn "assistant" answer] in
  save_history (PList h3).

Definition interactive_path (inv : invocation) (model : string) : M unit :=
  history <- load_history ;;
  repl inv history model ;;
  ret tt.

(** OPENAI_API_KEY is set to a non-empty string. *)
Definition key_set (inv : invocation) : Prop :=
  exists k, environ inv "OPENAI_API_KEY" = Some k /\ k <> "".

(** The model name [main] uses. *)
Definition model_of (inv : invocation) : string :=
  getenv_default inv "OPENAI_MODEL" MODEL_DEFAULT.

End Program.

(** ** A JSON encoder, a decoder and hosts for the worked examples *)

Definition hex_digit (n : nat) : ascii :=
  if (n <? 10)%nat then ascii_of_nat (48 + n) else ascii_of_nat (87 + n).

(** One character of a JSON string under [ensure_ascii]: the short
    escapes, [\u00xx] for what is not printable ASCII, the character
    itself otherwise. *)
Definition encode_char (c : ascii) : string :=
  let n := nat_of_ascii c in
  let bs := String (ascii_of_nat 92) EmptyString in
  if (n =? 34)%nat then String.append bs dquote
  else if (n =? 92)%nat then String.append bs bs
  else if (n =? 10)%nat then String.append bs "n"
  else if (n =? 13)%nat then String.append bs "r"
  else if (n =? 9)%nat then String.append bs "t"
  else if (n =? 12)%nat then String.append bs "f"
  else if (n =? 8)%nat then String.append bs "b"
  else if ((n <? 32) || (126 <? n))%nat
  then String.append bs
         (String.append "u00"
            (String (hex_digit (n / 16)) (String (hex_digit (n mod 16))
                EmptyString)))
  else String c EmptyString.

Fixpoint encode_chars (s : string) : string :=
  match s with
  | EmptyString => EmptyString
  | String c s' => String.append (encode_char c) (encode_chars s')
  end.

Definition encode_str (s : string) : string :=
  String.append dquote (String.append (encode_chars s) dquote).

Fixpoint spaces (n : nat) : string :=
  match n with
  | O => EmptyString
  | S n' => String " " (spaces n')
  end.

(** The line break and indentation that [indent=2] puts before an item
    at nesting depth [level]. *)
Definition newline_indent (level : nat) : string :=
  String.append newline (spaces (2 * level)).

Definition bracket (open close : string) (level : nat) (items : list string)
    : string :=
  match items with
  | [] => String.append open close
  | _ =>
      String.concat ""
        [open; newline_indent (S level);
         String.concat (String.append "," (newline_indent (S level))) items;
         newline_indent level; close]
  end.

(** [json.dumps(v, indent=2)] at nesting depth [level]. *)
Fixpoint encode (level : nat) (v : pyval) {struct v} : string :=
  match v with
  | PNone => "null"
  | PBool true => "true"
  | PBool false => "false"
  | PInt n => NilZero.string_of_int (Z.to_int n)
  | PFloat r => r
  | PStr s => encode_str s
  | PList items =>
      bracket "[" "]" level
        ((fix each (l : list pyval) : list string :=
            match l with
            | [] => []
            | x :: l' => encode (S level) x :: each l'
            end) items)
  | PDict items =>
      bracket "{" "}" level
        ((fix each (l : list (string * pyval)) : list string :=
            match l with
            | [] => []
            | (k, x) :: l' =>
                String.concat "" [encode_str k; ": "; encode (S level) x]
                :: each l'
            end) items)
  end.

Definition dumps_indent2 (v : pyval) : option string := Some (encode 0 v).

(** A decoder that knows the documents [docs]: it gives back the value
    whose encoding the text is, and rejects every other text. *)
Definition loads_among (docs : list pyval) (s : string) : option pyval :=
  find (fun v => String.eqb (encode 0 v) s) docs.

(** A remote service that answers every call with [text]; one that is
    down; a disk that takes every write; one that is full, so that the
    file is emptied and nothing written; one that cannot be written. *)
Definition answering (text : string)
  : nat -> string -> pyval -> option string :=
  fun _ _ _ => Some text.

Definition service_down : nat -> string -> pyval -> option string :=
  fun _ _ _ => None.

Definition disk_ok : nat -> write_result := fun _ => Written.

Definition disk_full : nat -> write_result := fun _ => Broken 0.

Definition disk_read_only : nat -> write_result := fun _ => NotOpened.

(** A history path that can be removed, and one that cannot. *)
Definition can_remove : nat -> bool := fun _ => true.

Definition cannot_remove : nat -> bool := fun _ => false.

(** A standard output in UTF-8, and one in ASCII. *)
Definition stdout_utf8 : ascii -> bool := fun _ => true.

Definition stdout_ascii : ascii -> bool := fun _ => false.

(** An environment with the key set, and one with nothing set. *)
Definition env_with_key : string -> option string :=
  fun name => if String.eqb name "OPENAI_API_KEY" then Some "sk-test" else None.

Definition env_empty : string -> option string := fun _ => None.

Definition fresh (f : file_state) : world := mkWorld f [].

(** [n] exchanges of a conversation, oldest first, numbered from 1. *)
Fixpoint exchanges (n : nat) : list pyval :=
  match n with
  | O => []
  | S n' =>
      let k := NilZero.string_of_uint (Nat.to_uint n) in
      exchanges n' ++ [turn "user" (String.append "question " k);
                       turn "assistant" (String.append "answer " k)]
  end.

(** The file that a write of [data] ending as [r] leaves, from the file
    [f] there was. *)
Definition file_after_write (r : write_result) (f : file_state)
    (data : string) : file_state :=
  match r with
  | Written => Text data
  | NotOpened => f
  | Broken kept => Text (substring 0 kept data)
  end.

(** Whether [unlink(missing_ok=True)] returns in the world [w]: a missing
    path is no error; any other path has to be removable. *)
Definition unlink_succeeds (removable : nat -> bool) (w : world) : bool :=
  match w_file w with
  | Missing => true
  | _ => removable (count_unlinks (w_trace w))
  end.

(** ** Predicates on computations, for the remote calls they make *)

Section Calls.

Variable create : nat -> string -> pyval -> option string.

(** A run from [w] to [w'] with outcome [r] only adds to the trace, and
    a remote call in it that fails is its last action and makes [r] the
    exception of that call. *)
Definition failure_ends_run {A : Type} (w : world) (r : outcome A)
    (w' : world) : Prop :=
  exists t,
    w_trace w' = w_trace w ++ t
    /\ forall pre m i post,
         t = pre ++ E_create m i :: post ->
         create (count_creates (w_trace w ++ pre)) m i = None ->
         post = [] /\ r = Raise APIError.

(** [m] lets no failure of a remote call pass. *)
Definition uncaught {A : Type} (m : M A) : Prop :=
  forall w, failure_ends_run w (fst (m w)) (snd (m w)).

(** [m] makes no remote call. *)
Definition quiet {A : Type} (m : M A) : Prop :=
  forall w, exists t,
    w_trace (snd (m w)) = w_trace w ++ t /\ filter is_create t = [].

End Calls.

(** ** Shapes of what a run sends and prints *)

(** The input of a remote call as a turn builds it: fewer than 60 earlier
    entries, then the user turn, whose prompt is stripped and not empty. *)
Definition sent_shape (v : pyval) : Prop :=
  exists before p,
    v = PList (before ++ [turn "user" p])
    /\ List.length before < 60
    /\ p <> ""
    /\ strip p = p.

(** An event is as a run with model name [model] may log it: a remote
    call names that model and has an input of the shape above. *)
Definition call_ok (model : string) (e : event) : Prop :=
  match e with
  | E_create m v => m = model /\ sent_shape v
  | _ => True
  end.

(** The five lines of the usage message. *)
Definition usage_lines : list event :=
  [E_print_err "Usage:";
   E_print_err (String.concat dquote ["  chatgpt "; "Your question here"; ""]);
   E_print_err "  chatgpt explain bfs";
   E_print_err "  cat file.txt | chatgpt";
   E_print_err "  chatgpt --reset"].

(** What [get_prompt_from_args_or_stdin] logs: nothing with arguments,
    the query of the terminal otherwise, and the read when it is none. *)
Definition prompt_events (inv : invocation) : list event :=
  match arguments inv with
  | _ :: _ => []
  | [] => if stdin_isatty inv then [E_isatty] else [E_isatty; E_stdin_read]
  end.

(** The prompt [get_prompt_from_args_or_stdin] returns. *)
Definition prompt_of (inv : invocation) : string :=
  match arguments inv with
  | _ :: _ => strip (join " " (arguments inv))
  | [] => if stdin_isatty inv then "" else strip (stdin_contents inv)
  end.

(** How a path of [main] past the prompt can end badly: the remote call
    failed, the answer could not be printed, the existence of the history
    path could not be checked, or the stored history parsed to something
    that is not a list. *)
Definition bad_end (json_loads : string -> option pyval) (f : file_state)
    (e : exn) : Prop :=
  e = APIError
  \/ e = UnicodeEncodeError
  \/ (e = OSError /\ f = Inaccessible)
  \/ (e = AttributeError
      /\ exists s v,
           f = Text s /\ json_loads s = Some v /\ forall l, v <> PList l).

(** * Properties *)

(** Unfolds the monad and the primitives, so that a computation applied
    to a world reduces to its outcome and final world. *)
Ltac run :=
  cbv beta delta
    [bind ret raise lift emit try_except print print_err sys_exit
     path_exists read_text write_text unlink_missing_ok loads dumps OpenAI
     responses_create input isatty stdin_read getenv getenv_default] in *.

(** ** The credential check *)

(** C9: when OPENAI_API_KEY is unset or empty, [main] prints the two
    diagnostic lines to the error stream and exits with status 1; the
    trace gains nothing else and the history file is left as it was. *)
Theorem main_without_key_exits_1 :
  forall json_loads json_dumps create disk removable stdout_encodes inv w,
    environ inv "OPENAI_API_KEY" = None \/
    environ inv "OPENAI_API_KEY" = Some "" ->
    main json_loads json_dumps create disk removable stdout_encodes inv w =
      (Raise (SystemExit 1),
       mkWorld (w_file w)
         (w_trace w ++
            [E_print_err "Error: OPENAI_API_KEY is not set.";
             E_print_err "Set it with: export OPENAI_API_KEY='sk-...'"]))
    /\ exit_status (fst (main json_loads json_dumps create disk removable
        stdout_encodes inv w)) = 1%Z.
Proof.
  intros json_loads json_dumps create disk removable stdout_encodes inv w Hkey.
  assert (Hmain : main json_loads json_dumps create disk removable
      stdout_encodes inv w =
      (Raise (SystemExit 1),
       mkWorld (w_file w)
         (w_trace w ++
            [E_print_err "Error: OPENAI_API_KEY is not set.";
             E_print_err "Set it with: export OPENAI_API_KEY='sk-...'"]))).
  { unfold main, getenv.
    assert (Hset : not_set (environ inv "OPENAI_API_KEY") = true)
      by (destruct Hkey as [-> | ->]; reflexivity).
    rewrite Hset. run. unfold log. simpl.
    rewrite <- app_assoc. reflexivity. }
  split; [exact Hmain | rewrite Hmain; reflexivity].
Qed.

Lemma main_without_key_exits_1_witness :
  exit_status
    (fst (main (loads_among []) dumps_indent2 (answering "ok") disk_ok
        can_remove stdout_utf8
            (mkInvocation ["chatgpt"; "hello"] env_empty true [])
            (fresh (Text "[]")))) = 1%Z.
Proof.
  apply (main_without_key_exits_1 (loads_among []) dumps_indent2
           (answering "ok") disk_ok can_remove stdout_utf8
           (mkInvocation ["chatgpt"; "hello"] env_empty true [])
           (fresh (Text "[]"))).
  left. reflexivity.
Defined.

(** ** The source of the prompt *)

Lemma arguments_present :
  forall inv,
    (1 <? List.length (sys_argv inv))%nat = true <-> arguments inv <> [].
Proof.
  intros inv. unfold arguments.
  destruct (sys_argv inv) as [| prog [| a args]]; simpl; split;
    intros H; try discriminate; try reflexivity; try congruence.
Qed.

Lemma arguments_absent :
  forall inv,
    (1 <? List.length (sys_argv inv))%nat = false <-> arguments inv = [].
Proof.
  intros inv. unfold arguments.
  destruct (sys_argv inv) as [| prog [| a args]]; simpl; split;
    intros H; try discriminate; reflexivity.
Qed.

(** [isspace] holds of the listed whitespace characters and of no
    other. *)
Lemma isspace_listed :
  forall c, isspace c = existsb (Ascii.eqb c) whitespace_chars.
Proof.
  intros c.
  destruct c as [[] [] [] [] [] [] [] []]; vm_compute; reflexivity.
Qed.

Lemma isspace_whitespace :
  forall c, isspace c = true <-> is_whitespace c.
Proof.
  intros c. rewrite isspace_listed. unfold is_whitespace. split.
  - intros H. apply existsb_exists in H. destruct H as [d [Hin Heq]].
    apply Ascii.eqb_eq in Heq. subst d. exact Hin.
  - intros H. apply existsb_exists. exists c. split; [exact H |].
    apply Ascii.eqb_refl.
Qed.

Lemma not_whitespace :
  forall c, isspace c = false <-> ~ is_whitespace c.
Proof.
  intros c. rewrite <- isspace_whitespace.
  destruct (isspace c); split; intros H; congruence.
Qed.

Lemma blank_cons :
  forall c s, blank (String c s) <-> isspace c = true /\ blank s.
Proof.
  intros c s. unfold blank. simpl. rewrite isspace_whitespace. split.
  - intros H. inversion H; subst. split; assumption.
  - intros [Hc Hs]. constructor; assumption.
Qed.

Lemma blank_empty : blank "".
Proof.
  unfold blank. simpl. constructor.
Qed.

(** [lstrip] takes a run of whitespace off the front. *)
Lemma lstrip_splits :
  forall s, exists lead, s = String.append lead (lstrip s) /\ blank lead.
Proof.
  induction s as [| c s [lead [Hs Hlead]]].
  - exists "". split; [reflexivity | apply blank_empty].
  - simpl lstrip. destruct (isspace c) eqn:Hc.
    + exists (String c lead). split.
      * simpl. rewrite <- Hs. reflexivity.
      * apply blank_cons. split; assumption.
    + exists "". split; [reflexivity | apply blank_empty].
Qed.

(** [rstrip] takes a run of whitespace off the back. *)
Lemma rstrip_splits :
  forall s, exists trail, s = String.append (rstrip s) trail /\ blank trail.
Proof.
  induction s as [| c s [trail [Hs Htrail]]].
  - exists "". split; [reflexivity | apply blank_empty].
  - simpl rstrip. destruct (rstrip s) as [| d r] eqn:Hr.
    + destruct (isspace c) eqn:Hc.
      * exists (String c trail). split.
        -- simpl. rewrite Hs. reflexivity.
        -- apply blank_cons. split; assumption.
      * exists trail. split; [| exact Htrail].
        simpl. rewrite Hs. reflexivity.
    + exists trail. split; [| exact Htrail].
      rewrite Hs at 1. reflexivity.
Qed.

Lemma lstrip_first :
  forall s c, first_char (lstrip s) = Some c -> isspace c = false.
Proof.
  induction s as [| a s IH]; intros c H; simpl in H; [discriminate |].
  destruct (isspace a) eqn:Ha; [apply IH; exact H |].
  simpl in H. inversion H; subst. exact Ha.
Qed.

Lemma rstrip_first :
  forall s c,
    (forall a, first_char s = Some a -> isspace a = false) ->
    first_char (rstrip s) = Some c -> isspace c = false.
Proof.
  intros [| a s] c Hfirst H; [discriminate |].
  assert (Ha : isspace a = false) by (apply Hfirst; reflexivity).
  simpl in H. destruct (rstrip s); [rewrite Ha in H |];
    simpl in H; inversion H; subst; exact Ha.
Qed.

Lemma rstrip_last :
  forall s c, last_char (rstrip s) = Some c -> isspace c = false.
Proof.
  induction s as [| a s IH]; intros c H; [discriminate |].
  simpl rstrip in H. destruct (rstrip s) as [| d r] eqn:Hr.
  - destruct (isspace a) eqn:Ha; [discriminate |].
    simpl in H. inversion H; subst. exact Ha.
  - apply IH. exact H.
Qed.

Lemma lstrip_blank :
  forall lead s, blank lead -> lstrip (String.append lead s) = lstrip s.
Proof.
  induction lead as [| c lead IH]; intros s Hlead; [reflexivity |].
  apply blank_cons in Hlead. destruct Hlead as [Hc Hlead].
  simpl. rewrite Hc. apply IH. exact Hlead.
Qed.

Lemma lstrip_tight :
  forall p,
    (forall c, first_char p = Some c -> ~ is_whitespace c) -> lstrip p = p.
Proof.
  intros [| c p] Hfirst; [reflexivity |].
  simpl. assert (Hc : isspace c = false).
  { apply not_whitespace, Hfirst. reflexivity. }
  rewrite Hc. reflexivity.
Qed.

Lemma rstrip_of_blank :
  forall trail, blank trail -> rstrip trail = "".
Proof.
  induction trail as [| c trail IH]; intros Htrail; [reflexivity |].
  apply blank_cons in Htrail. destruct Htrail as [Hc Htrail].
  simpl. rewrite (IH Htrail), Hc. reflexivity.
Qed.

Lemma rstrip_blank :
  forall p trail, blank trail -> rstrip (String.append p trail) = rstrip p.
Proof.
  induction p as [| c p IH]; intros trail Htrail.
  - simpl. apply rstrip_of_blank. exact Htrail.
  - simpl. rewrite (IH trail Htrail). reflexivity.
Qed.

Lemma rstrip_tight :
  forall p,
    (forall c, last_char p = Some c -> ~ is_whitespace c) -> rstrip p = p.
Proof.
  induction p as [| c p IH]; intros Hlast; [reflexivity |].
  destruct p as [| d p].
  - simpl. assert (Hc : isspace c = false).
    { apply not_whitespace, Hlast. reflexivity. }
    rewrite Hc. reflexivity.
  - change (rstrip (String c (String d p)))
      with (match rstrip (String d p) with
            | EmptyString =>
                if isspace c then EmptyString else String c EmptyString
            | String a b => String c (String a b)
            end).
    rewrite IH; [reflexivity |].
    intros a Ha. apply Hlast. exact Ha.
Qed.

Lemma lstrip_of_blank :
  forall lead, blank lead -> lstrip lead = "".
Proof.
  induction lead as [| c lead IH]; intros Hlead; [reflexivity |].
  apply blank_cons in Hlead. destruct Hlead as [Hc Hlead].
  simpl. rewrite Hc. apply IH. exact Hlead.
Qed.

(** [strip] trims: what it returns is its argument trimmed of
    surrounding whitespace. *)
Lemma strip_trims :
  forall s, trimmed_of s (strip s).
Proof.
  intros s. unfold trimmed_of, strip.
  destruct (lstrip_splits s) as [lead [Hs Hlead]].
  destruct (rstrip_splits (lstrip s)) as [trail [Hl Htrail]].
  exists lead, trail. split; [| split; [| split; [| split]]].
  - rewrite <- Hl. exact Hs.
  - exact Hlead.
  - exact Htrail.
  - intros c Hc. apply not_whitespace.
    apply (rstrip_first (lstrip s)); [| exact Hc].
    intros a Ha. apply (lstrip_first s). exact Ha.
  - intros c Hc. apply not_whitespace.
    apply (rstrip_last (lstrip s)). exact Hc.
Qed.

(** Nothing else is: the trimmed text is unique, and it is what [strip]
    returns. *)
Lemma trimmed_is_strip :
  forall s p, trimmed_of s p -> p = strip s.
Proof.
  intros s p [lead [trail [Hs [Hlead [Htrail [Hfirst Hlast]]]]]].
  subst s. unfold strip. rewrite (lstrip_blank lead _ Hlead).
  destruct p as [| c p].
  - simpl String.append. rewrite (lstrip_of_blank trail Htrail).
    reflexivity.
  - assert (Hc : isspace c = false).
    { apply not_whitespace, Hfirst. reflexivity. }
    simpl String.append. simpl lstrip. rewrite Hc.
    change (String c (String.append p trail))
      with (String.append (String c p) trail).
    rewrite (rstrip_blank _ trail Htrail).
    symmetry. apply rstrip_tight. exact Hlast.
Qed.

(** C5: with arguments the prompt is the arguments joined by single
    spaces and stripped, and the world is untouched (the standard input
    is not consulted); without arguments and with a standard input that
    is not a terminal it is everything the standard input holds,
    stripped; otherwise it is the empty string.  Stripped means trimmed
    of surrounding whitespace, in the words of the specification: the
    text is the prompt between two runs of whitespace characters, the
    prompt has no whitespace character at either end, and no other text
    is related to the input in this way. *)
Theorem get_prompt_priority :
  forall inv w,
    (arguments inv <> [] ->
     get_prompt_from_args_or_stdin inv w =
       (Ret (strip (join " " (arguments inv))), w))
    /\ (arguments inv = [] -> stdin_isatty inv = false ->
        get_prompt_from_args_or_stdin inv w =
          (Ret (strip (stdin_contents inv)),
           log E_stdin_read (log E_isatty w)))
    /\ (arguments inv = [] -> stdin_isatty inv = true ->
        get_prompt_from_args_or_stdin inv w =
          (Ret "", log E_isatty w))
    /\ (forall p,
          fst (get_prompt_from_args_or_stdin inv w) = Ret p ->
          (arguments inv <> [] ->
           forall q, trimmed_of (join " " (arguments inv)) q <-> q = p)
          /\ (arguments inv = [] -> stdin_isatty inv = false ->
              forall q, trimmed_of (stdin_contents inv) q <-> q = p)).
Proof.
  intros inv w.
  assert (Hargs :
    arguments inv <> [] ->
    get_prompt_from_args_or_stdin inv w =
      (Ret (strip (join " " (arguments inv))), w)).
  { intros Hargs. unfold get_prompt_from_args_or_stdin.
    apply arguments_present in Hargs. rewrite Hargs. reflexivity. }
  assert (Hpipe :
    arguments inv = [] -> stdin_isatty inv = false ->
    get_prompt_from_args_or_stdin inv w =
      (Ret (strip (stdin_contents inv)),
       log E_stdin_read (log E_isatty w))).
  { intros Hnone Htty. unfold get_prompt_from_args_or_stdin.
    apply arguments_absent in Hnone. rewrite Hnone.
    run. rewrite Htty. reflexivity. }
  split; [exact Hargs | split; [exact Hpipe | split]].
  - intros Hnone Htty. unfold get_prompt_from_args_or_stdin.
    apply arguments_absent in Hnone. rewrite Hnone.
    run. rewrite Htty. reflexivity.
  - intros p Hp. split.
    + intros Hsome q. rewrite (Hargs Hsome) in Hp. simpl in Hp.
      inversion Hp; subst p. split.
      * apply trimmed_is_strip.
      * intros ->. apply strip_trims.
    + intros Hnone Htty q. rewrite (Hpipe Hnone Htty) in Hp. simpl in Hp.
      inversion Hp; subst p. split.
      * apply trimmed_is_strip.
      * intros ->. apply strip_trims.
Qed.

Lemma get_prompt_priority_witness :
  get_prompt_from_args_or_stdin
    (mkInvocation ["chatgpt"; "explain"; "bfs"] env_with_key false ["ignored"])
    (fresh Missing) = (Ret "explain bfs", fresh Missing)
  /\ get_prompt_from_args_or_stdin
       (mkInvocation ["chatgpt"; "  explain"; "bfs  "] env_with_key false [])
       (fresh Missing) = (Ret "explain bfs", fresh Missing)
  /\ get_prompt_from_args_or_stdin
       (mkInvocation ["chatgpt"] env_with_key false ["hello"])
       (fresh Missing) =
     (Ret "hello", mkWorld Missing [E_isatty; E_stdin_read])
  /\ get_prompt_from_args_or_stdin
       (mkInvocation ["chatgpt"] env_with_key false
          [""; String (ascii_of_nat 9) " hello world  "])
       (fresh Missing) =
     (Ret "hello world", mkWorld Missing [E_isatty; E_stdin_read])
  /\ get_prompt_from_args_or_stdin
       (mkInvocation ["chatgpt"] env_with_key true ["hello"])
       (fresh Missing) =
     (Ret "", mkWorld Missing [E_isatty])
  /\ trimmed_of "  explain bfs  " "explain bfs"
  /\ ~ trimmed_of "  explain bfs  " "  explain bfs".
Proof.
  split; [| split; [| split; [| split; [| split; [| split]]]]].
  - apply (proj1 (get_prompt_priority
             (mkInvocation ["chatgpt"; "explain"; "bfs"] env_with_key false
                ["ignored"]) (fresh Missing))).
    discriminate.
  - apply (proj1 (get_prompt_priority
             (mkInvocation ["chatgpt"; "  explain"; "bfs  "] env_with_key
                false []) (fresh Missing))).
    discriminate.
  - apply (proj1 (proj2 (get_prompt_priority
             (mkInvocation ["chatgpt"] env_with_key false ["hello"])
             (fresh Missing)))); reflexivity.
  - apply (proj1 (proj2 (get_prompt_priority
             (mkInvocation ["chatgpt"] env_with_key false
                [""; String (ascii_of_nat 9) " hello world  "])
             (fresh Missing)))); reflexivity.
  - apply (proj1 (proj2 (proj2 (get_prompt_priority
             (mkInvocation ["chatgpt"] env_with_key true ["hello"])
             (fresh Missing))))); reflexivity.
  - apply (proj1 (proj2 (proj2 (proj2 (get_prompt_priority
             (mkInvocation ["chatgpt"; "  explain"; "bfs  "] env_with_key
                false []) (fresh Missing)))) "explain bfs" eq_refl)).
    + discriminate.
    + reflexivity.
  - intros H.
    apply (proj1 (proj2 (proj2 (proj2 (get_prompt_priority
             (mkInvocation ["chatgpt"; "  explain"; "bfs  "] env_with_key
                false []) (fresh Missing)))) "explain bfs" eq_refl)) in H.
    + discriminate H.
    + discriminate.
Defined.

(** ** The interactive loop *)

(** Text in ASCII always prints. *)
Lemma encodable_ascii :
  forall stdout_encodes text,
    all_ascii text = true -> encodable stdout_encodes text = true.
Proof.
  intros stdout_encodes text. induction text as [| c rest IH]; simpl.
  - reflexivity.
  - intros H. apply andb_true_iff in H. destruct H as [Hc Hrest].
    rewrite Hc, (IH Hrest). reflexivity.
Qed.

Lemma print_ascii :
  forall stdout_encodes text w,
    all_ascii text = true ->
    print stdout_encodes text w = (Ret tt, log (E_print text) w).
Proof.
  intros stdout_encodes text w H. unfold print.
  rewrite (encodable_ascii stdout_encodes text H). reflexivity.
Qed.

(** What [input] followed by [strip] leaves for the rest of a round. *)
Lemma read_prompt :
  forall stdout_encodes line w,
    try_except (l <- input "> " (Some line) ;; ret (Some (strip l)))
               is_EOFError (print stdout_encodes "" ;; ret None) w =
      (Ret (Some (strip line)), log (E_input "> ") w).
Proof. reflexivity. Qed.

(** C7: a line that is empty once stripped is a round that changes
    nothing: the only action is the [input] itself (no remote call, no
    write of the history file), the transcript is the same, and the loop
    goes on with the next line. *)
Theorem repl_skips_empty_line :
  forall json_dumps create disk stdout_encodes line rest history model w,
    strip line = "" ->
    repl_iteration json_dumps create disk stdout_encodes (Some line) history
        model w =
      (Ret (Continue history), log (E_input "> ") w)
    /\ repl_loop json_dumps create disk stdout_encodes (line :: rest) history
        model w =
         repl_loop json_dumps create disk stdout_encodes rest history model
           (log (E_input "> ") w).
Proof.
  intros json_dumps create disk stdout_encodes line rest history model w Hempty.
  assert (Hround :
    repl_iteration json_dumps create disk stdout_encodes (Some line) history
        model w =
      (Ret (Continue history), log (E_input "> ") w)).
  { unfold repl_iteration, bind at 1. rewrite read_prompt, Hempty.
    reflexivity. }
  split; [exact Hround |].
  simpl repl_loop. unfold bind at 1. rewrite Hround. reflexivity.
Qed.

Lemma repl_skips_empty_line_witness :
  repl_loop dumps_indent2 (answering "ok") disk_ok stdout_utf8 ["   "; "exit"]
    (PList []) MODEL_DEFAULT (fresh Missing) =
  repl_loop dumps_indent2 (answering "ok") disk_ok stdout_utf8 ["exit"]
    (PList []) MODEL_DEFAULT (mkWorld Missing [E_input "> "]).
Proof.
  apply (repl_skips_empty_line dumps_indent2 (answering "ok") disk_ok
      stdout_utf8
           "   " ["exit"] (PList []) MODEL_DEFAULT (fresh Missing)).
  reflexivity.
Defined.



(** ** The shape of [main] *)

Lemma key_set_not_set :
  forall inv, key_set inv -> not_set (getenv inv "OPENAI_API_KEY") = false.
Proof.
  intros inv [k [Hk Hne]]. unfold getenv. rewrite Hk.
  destruct k; [congruence | reflexivity].
Qed.

(** [get_prompt_from_args_or_stdin] returns, and leaves the file alone. *)
Lemma get_prompt_returns :
  forall inv w,
    exists p w1,
      get_prompt_from_args_or_stdin inv w = (Ret p, w1)
      /\ w_file w1 = w_file w
      /\ count_creates (w_trace w1) = count_creates (w_trace w)
      /\ count_writes (w_trace w1) = count_writes (w_trace w).
Proof.
  intros inv w. unfold get_prompt_from_args_or_stdin.
  destruct (1 <? List.length (sys_argv inv))%nat.
  - eexists; eexists; split; [reflexivity | auto].
  - run. destruct (stdin_isatty inv); simpl;
      (eexists; eexists; split; [reflexivity |]);
      unfold count_creates, count_writes; simpl;
      rewrite ?filter_app; simpl; rewrite ?app_nil_r; auto.
Qed.

(** With the key set and a prompt that is neither empty nor "--reset",
    [main] creates the client and takes the one-shot path. *)
Lemma main_one_shot :
  forall json_loads json_dumps create disk removable stdout_encodes inv w p w1,
    key_set inv ->
    get_prompt_from_args_or_stdin inv w = (Ret p, w1) ->
    p <> "" -> p <> "--reset" ->
    main json_loads json_dumps create disk removable stdout_encodes inv w =
      one_shot_path json_loads json_dumps create disk stdout_encodes p
          (model_of inv)
        (log E_OpenAI w1).
Proof.
  intros json_loads json_dumps create disk removable stdout_encodes inv w p w1
      Hkey Hp Hne Hreset.
  unfold main. rewrite (key_set_not_set inv Hkey).
  unfold bind at 1. rewrite Hp.
  apply String.eqb_neq in Hreset. rewrite Hreset.
  destruct p as [| c p]; [congruence |].
  reflexivity.
Qed.

(** With the key set, an empty prompt and a terminal, [main] creates the
    client, asks whether the standard input is a terminal, and takes the
    interactive path. *)
Lemma main_interactive :
  forall json_loads json_dumps create disk removable stdout_encodes inv w w1,
    key_set inv ->
    get_prompt_from_args_or_stdin inv w = (Ret "", w1) ->
    stdin_isatty inv = true ->
    main json_loads json_dumps create disk removable stdout_encodes inv w =
      interactive_path json_loads json_dumps create disk stdout_encodes inv
          (model_of inv)
        (log E_isatty (log E_OpenAI w1)).
Proof.
  intros json_loads json_dumps create disk removable stdout_encodes inv w w1
      Hkey Hp Htty.
  unfold main. rewrite (key_set_not_set inv Hkey).
  unfold bind at 1. rewrite Hp. simpl String.eqb. cbv iota.
  unfold bind at 1. simpl OpenAI. unfold OpenAI, emit.
  unfold bind at 1. simpl is_empty. cbv iota.
  unfold isatty at 1. unfold bind at 1, emit, ret. rewrite Htty.
  reflexivity.
Qed.

(** ** The history store *)

(** What [load_history] does, file state by file state. *)
Lemma load_history_cases :
  forall json_loads w,
    load_history json_loads w =
      match w_file w with
      | Missing => (Ret (PList []), log E_exists w)
      | Unreadable => (Ret (PList []), log E_read_text (log E_exists w))
      | Text s =>
          (Ret (match json_loads s with Some v => v | None => PList [] end),
           log E_read_text (log E_exists w))
      | Inaccessible => (Raise OSError, log E_exists w)
      end.
Proof.
  intros json_loads w. unfold load_history. run.
  destruct (w_file w) as [| s | |] eqn:Hfile; simpl; rewrite ?Hfile; simpl.
  - reflexivity.
  - destruct (json_loads s); reflexivity.
  - reflexivity.
  - reflexivity.
Qed.

Lemma load_history_frame :
  forall json_loads w v w',
    load_history json_loads w = (Ret v, w') ->
    w_file w' = w_file w
    /\ count_creates (w_trace w') = count_creates (w_trace w)
    /\ count_writes (w_trace w') = count_writes (w_trace w).
Proof.
  intros json_loads w v w' H. rewrite load_history_cases in H.
  destruct (w_file w) as [| s | |] eqn:Hfile; inversion H; subst; simpl;
    unfold count_creates, count_writes; simpl;
    rewrite ?filter_app; simpl; rewrite ?app_nil_r; auto.
Qed.




(** What [save_history] does: it returns, whatever [json.dumps] and the
    disk do. *)
Lemma save_history_cases :
  forall json_dumps disk history w,
    save_history json_dumps disk history w =
      match json_dumps history with
      | None => (Ret tt, w)
      | Some s =>
          (Ret tt,
           mkWorld
             (file_after_write (disk (count_writes (w_trace w))) (w_file w) s)
             (w_trace w ++ [E_write_text s]))
      end.
Proof.
  intros json_dumps disk history w. unfold save_history. run.
  destruct (json_dumps history) as [s |]; simpl; [| reflexivity].
  destruct (disk (count_writes (w_trace w))); reflexivity.
Qed.

Lemma save_history_returns :
  forall json_dumps disk history w,
    save_history json_dumps disk history w =
      (Ret tt, snd (save_history json_dumps disk history w)).
Proof.
  intros json_dumps disk history w. rewrite save_history_cases.
  destruct (json_dumps history); reflexivity.
Qed.

(** Logging an event that is not a remote call, or not a write, leaves
    the respective count alone. *)
Lemma count_creates_log :
  forall e w,
    is_create e = false ->
    count_creates (w_trace (log e w)) = count_creates (w_trace w).
Proof.
  intros e w He. unfold count_creates, log. simpl.
  rewrite filter_app. simpl. rewrite He, app_nil_r. reflexivity.
Qed.

Lemma count_writes_log :
  forall e w,
    is_write_text e = false ->
    count_writes (w_trace (log e w)) = count_writes (w_trace w).
Proof.
  intros e w He. unfold count_writes, log. simpl.
  rewrite filter_app. simpl. rewrite He, app_nil_r. reflexivity.
Qed.

(** A round of the loop on a line that is neither empty nor a command to
    leave, in closed form: the user turn is appended, the last 60 entries
    are sent, and on an answer that can be printed the assistant turn is
    appended and the result saved. *)
Lemma repl_iteration_turn :
  forall json_dumps create disk stdout_encodes line history model w,
    strip line <> "" ->
    existsb (String.eqb (lower (strip line))) ["exit"; "quit"] = false ->
    repl_iteration json_dumps create disk stdout_encodes (Some line) history
      model w =
      match py_append history (turn "user" (strip line)) with
      | Raise e => (Raise e, log (E_input "> ") w)
      | Ret h1 =>
          let sent := last_n 60 h1 in
          let w1 := log (E_create model (PList sent)) (log (E_input "> ") w) in
          match create (count_creates (w_trace w)) model (PList sent) with
          | None => (Raise APIError, w1)
          | Some text =>
              if encodable stdout_encodes (strip text)
              then
                let kept := sent ++ [turn "assistant" (strip text)] in
                (Ret (Continue (PList kept)),
                 snd (save_history json_dumps disk (PList kept)
                        (log (E_print "") (log (E_print (strip text)) w1))))
              else (Raise UnicodeEncodeError, w1)
          end
      end.
Proof.
  intros json_dumps create disk stdout_encodes line history model w Hne Hcmd.
  unfold repl_iteration, bind at 1. rewrite read_prompt.
  destruct (strip line) as [| c p] eqn:Hstrip; [congruence |].
  change (is_empty (String c p)) with false. cbv iota.
  rewrite Hcmd.
  unfold bind at 1, lift.
  destruct (py_append history (turn "user" (String c p))) as [h1 | e];
    [| reflexivity].
  unfold bind at 1, responses_create.
  rewrite count_creates_log by reflexivity.
  destruct (create (count_creates (w_trace w)) model (PList (last_n 60 h1)))
    as [text |]; [| reflexivity].
  unfold bind at 1, print at 1.
  destruct (encodable stdout_encodes (strip text)); [| reflexivity].
  unfold bind, print, ret. simpl encodable. cbv iota.
  rewrite (save_history_returns json_dumps disk). reflexivity.
Qed.

(** The one-shot path in closed form, from the history that was loaded. *)
Lemma one_shot_path_turn :
  forall json_loads json_dumps create disk stdout_encodes p model w history w0,
    load_history json_loads w = (Ret history, w0) ->
    one_shot_path json_loads json_dumps create disk stdout_encodes p model w =
      match py_append history (turn "user" p) with
      | Raise e => (Raise e, w0)
      | Ret h1 =>
          let sent := last_n 60 h1 in
          let w1 := log (E_create model (PList sent)) w0 in
          match create (count_creates (w_trace w)) model (PList sent) with
          | None => (Raise APIError, w1)
          | Some text =>
              if encodable stdout_encodes (strip text)
              then
                let kept := sent ++ [turn "assistant" (strip text)] in
                (Ret tt,
                 snd (save_history json_dumps disk (PList kept)
                        (log (E_print (strip text)) w1)))
              else (Raise UnicodeEncodeError, w1)
          end
      end.
Proof.
  intros json_loads json_dumps create disk stdout_encodes p model w history w0
    Hload.
  destruct (load_history_frame _ _ _ _ Hload) as [_ [Hcount _]].
  unfold one_shot_path, bind at 1. rewrite Hload.
  unfold bind at 1, lift.
  destruct (py_append history (turn "user" p)) as [h1 | e]; [| reflexivity].
  unfold bind at 1, responses_create. rewrite Hcount.
  destruct (create (count_creates (w_trace w)) model (PList (last_n 60 h1)))
    as [text |]; [| reflexivity].
  unfold bind at 1, print at 1.
  destruct (encodable stdout_encodes (strip text)); [| reflexivity].
  rewrite (save_history_returns json_dumps disk). reflexivity.
Qed.

(** C3: [save_history] returns for every transcript and reports nothing,
    whatever [json.dumps] and the write do.  The file is left as it was
    when [json.dumps] raises or the file cannot be opened, and with a
    prefix of the data when the write breaks off after the open.  A
    round of the interactive loop whose save fails has printed the
    answer all the same and goes on to the next round with the
    transcript it built. *)
Theorem save_history_never_raises :
  forall json_dumps create disk stdout_encodes history w,
    fst (save_history json_dumps disk history w) = Ret tt
    /\ filter is_report (w_trace (snd (save_history json_dumps disk history w)))
       = filter is_report (w_trace w)
    /\ w_file (snd (save_history json_dumps disk history w)) =
         match json_dumps history with
         | None => w_file w
         | Some s =>
             file_after_write (disk (count_writes (w_trace w))) (w_file w) s
         end
    /\ (forall line rest items model text,
          strip line <> "" ->
          existsb (String.eqb (lower (strip line))) ["exit"; "quit"] = false ->
          history = PList items ->
          create (count_creates (w_trace w)) model
            (PList (last_n 60 (items ++ [turn "user" (strip line)])))
            = Some text ->
          encodable stdout_encodes (strip text) = true ->
          let kept := last_n 60 (items ++ [turn "user" (strip line)])
                      ++ [turn "assistant" (strip text)] in
          json_dumps (PList kept) = None \/
          disk (count_writes (w_trace w)) <> Written ->
          exists w',
            repl_iteration json_dumps create disk stdout_encodes (Some line)
              history model w
            = (Ret (Continue (PList kept)), w')
            /\ repl_loop json_dumps create disk stdout_encodes (line :: rest)
                 history model w
               = repl_loop json_dumps create disk stdout_encodes rest
                   (PList kept) model w'
            /\ w_file w' =
                 match json_dumps (PList kept) with
                 | None => w_file w
                 | Some s =>
                     file_after_write (disk (count_writes (w_trace w)))
                       (w_file w) s
                 end
            /\ filter is_report (w_trace w') =
                filter is_report (w_trace w)
                ++ [E_print (strip text); E_print ""]).
Proof.
  intros json_dumps create disk stdout_encodes history w.
  split; [| split; [| split]].
  - rewrite save_history_returns. reflexivity.
  - rewrite save_history_cases.
    destruct (json_dumps history) as [s |]; [| reflexivity].
    simpl. rewrite filter_app. simpl. apply app_nil_r.
  - rewrite save_history_cases.
    destruct (json_dumps history) as [s |]; reflexivity.
  - intros line rest items model text Hne Hcmd -> Hcreate Hprint kept Hfail.
    simpl repl_loop. unfold bind at 1.
    rewrite (repl_iteration_turn json_dumps create disk stdout_encodes)
      by assumption.
    unfold py_append. cbv beta iota zeta. rewrite Hcreate, Hprint. fold kept.
    eexists. split; [reflexivity |]. split; [reflexivity |].
    rewrite save_history_cases.
    rewrite !count_writes_log by reflexivity.
    destruct (json_dumps (PList kept)) as [s |]; simpl.
    + split; [reflexivity |].
      rewrite !filter_app. simpl. rewrite !app_nil_r, <- !app_assoc.
      reflexivity.
    + split; [reflexivity |].
      rewrite !filter_app. simpl. rewrite !app_nil_r, <- !app_assoc.
      reflexivity.
Qed.

Lemma save_history_never_raises_witness :
  exists w',
    repl_iteration dumps_indent2 (answering "ok") disk_full stdout_utf8
      (Some "hello") (PList []) MODEL_DEFAULT (fresh (Text "[]"))
    = (Ret (Continue (PList [turn "user" "hello"; turn "assistant" "ok"])),
       w')
    /\ repl_loop dumps_indent2 (answering "ok") disk_full stdout_utf8
         ["hello"; "exit"] (PList []) MODEL_DEFAULT (fresh (Text "[]"))
       = repl_loop dumps_indent2 (answering "ok") disk_full stdout_utf8
           ["exit"] (PList [turn "user" "hello"; turn "assistant" "ok"])
           MODEL_DEFAULT w'
    /\ w_file w' = Text ""
    /\ filter is_report (w_trace w') = [E_print "ok"; E_print ""].
Proof.
  apply (proj2 (proj2 (proj2 (save_history_never_raises dumps_indent2
                                (answering "ok") disk_full stdout_utf8
                                (PList []) (fresh (Text "[]")))))
           "hello" ["exit"] [] MODEL_DEFAULT "ok");
    try reflexivity.
  - discriminate.
  - right. discriminate.
Defined.

Lemma save_history_trace :
  forall json_dumps disk history w e,
    In e (w_trace w) ->
    In e (w_trace (snd (save_history json_dumps disk history w))).
Proof.
  intros json_dumps disk history w e Hin. rewrite save_history_cases.
  destruct (json_dumps history) as [s |]; [| exact Hin].
  destruct (disk (count_writes (w_trace w))); simpl;
    apply in_or_app; left; exact Hin.
Qed.

(** C10: whatever value the file's text parses to, [load_history] returns
    it as it is.  The one-shot path then uses it as the conversation: a
    list has the user turn appended and its last 60 entries sent to the
    remote service, whatever its items are; on a value that is not a list
    the [append] raises AttributeError, before any remote call. *)
Theorem load_history_no_shape_check :
  forall json_loads json_dumps create disk removable stdout_encodes s v,
    json_loads s = Some v ->
    (forall w, w_file w = Text s ->
       load_history json_loads w =
         (Ret v, log E_read_text (log E_exists w)))
    /\ (forall inv w p w1,
          key_set inv ->
          get_prompt_from_args_or_stdin inv w = (Ret p, w1) ->
          p <> "" -> p <> "--reset" ->
          w_file w = Text s ->
          match v with
          | PList items =>
              In (E_create (model_of inv)
                    (PList (last_n 60 (items ++ [turn "user" p]))))
                 (w_trace (snd (main json_loads json_dumps create disk
                     removable stdout_encodes inv w)))
          | _ =>
              main json_loads json_dumps create disk removable stdout_encodes
                  inv w =
                (Raise AttributeError,
                 log E_read_text (log E_exists (log E_OpenAI w1)))
          end).
Proof.
  intros json_loads json_dumps create disk removable stdout_encodes s v Hparse.
  assert (Hload : forall w, w_file w = Text s ->
            load_history json_loads w =
              (Ret v, log E_read_text (log E_exists w))).
  { intros w Hfile. rewrite load_history_cases, Hfile, Hparse. reflexivity. }
  split; [exact Hload |].
  intros inv w p w1 Hkey Hp Hne Hreset Hfile.
  destruct (get_prompt_returns inv w) as [p' [w1' [Hp' [Hfile1 _]]]].
  rewrite Hp in Hp'. inversion Hp'; subst p' w1'.
  rewrite (main_one_shot json_loads json_dumps create disk removable
      stdout_encodes inv w p w1)
    by assumption.
  assert (Hfile' : w_file (log E_OpenAI w1) = Text s)
    by (simpl; congruence).
  rewrite (one_shot_path_turn json_loads json_dumps create disk stdout_encodes p
             (model_of inv) _ v _ (Hload _ Hfile')).
  destruct v; try reflexivity.
  unfold py_append. cbv beta iota zeta.
  destruct (create _ _ _) as [text |];
    [destruct (encodable stdout_encodes (strip text)) |];
    simpl fst; simpl snd.
  - apply save_history_trace. simpl. rewrite !in_app_iff. simpl. tauto.
  - simpl. rewrite !in_app_iff. simpl. tauto.
  - simpl. rewrite !in_app_iff. simpl. tauto.
Qed.

Lemma load_history_no_shape_check_witness :
  load_history (loads_among [PDict []]) (fresh (Text "{}")) =
    (Ret (PDict []), mkWorld (Text "{}") [E_exists; E_read_text])
  /\ main (loads_among [PDict []]) dumps_indent2 (answering "ok") disk_ok
      can_remove stdout_utf8
       (mkInvocation ["chatgpt"; "hello"] env_with_key true [])
       (fresh (Text "{}")) =
     (Raise AttributeError,
      mkWorld (Text "{}") [E_OpenAI; E_exists; E_read_text]).
Proof.
  assert (Hparse : loads_among [PDict []] "{}" = Some (PDict []))
    by reflexivity.
  split.
  - apply (proj1 (load_history_no_shape_check (loads_among [PDict []])
                    dumps_indent2 (answering "ok") disk_ok can_remove
                        stdout_utf8 "{}" (PDict [])
                    Hparse) (fresh (Text "{}"))).
    reflexivity.
  - apply (proj2 (load_history_no_shape_check (loads_among [PDict []])
                    dumps_indent2 (answering "ok") disk_ok can_remove
                        stdout_utf8 "{}" (PDict [])
                    Hparse)
             (mkInvocation ["chatgpt"; "hello"] env_with_key true [])
             (fresh (Text "{}")) "hello" (fresh (Text "{}"))).
    + exists "sk-test". split; [reflexivity | discriminate].
    + reflexivity.
    + discriminate.
    + discriminate.
    + reflexivity.
Defined.

(** ** Clearing the history *)

Lemma unlink_cases :
  forall removable w,
    unlink_missing_ok removable w =
      if unlink_succeeds removable w
      then (Ret tt, mkWorld Missing (w_trace w ++ [E_unlink]))
      else (Raise OSError, mkWorld (w_file w) (w_trace w ++ [E_unlink])).
Proof.
  intros removable w. unfold unlink_missing_ok, unlink_succeeds.
  destruct (w_file w) eqn:Hfile;
    try (destruct (removable (count_unlinks (w_trace w))));
    unfold log, set_file; simpl; rewrite ?Hfile; reflexivity.
Qed.

(** With the key set and the prompt "--reset", wherever it came from,
    [main] unlinks the file and, unless that raises, confirms. *)
Lemma main_reset :
  forall json_loads json_dumps create disk removable stdout_encodes inv w w1,
    key_set inv ->
    get_prompt_from_args_or_stdin inv w = (Ret "--reset", w1) ->
    main json_loads json_dumps create disk removable stdout_encodes inv w =
      if unlink_succeeds removable w1
      then (Ret tt,
            mkWorld Missing
              (w_trace w1 ++ [E_unlink; E_print "History cleared."]))
      else (Raise OSError, mkWorld (w_file w1) (w_trace w1 ++ [E_unlink])).
Proof.
  intros json_loads json_dumps create disk removable stdout_encodes inv w w1
    Hkey Hp.
  unfold main. rewrite (key_set_not_set inv Hkey).
  unfold bind at 1. rewrite Hp. rewrite String.eqb_refl.
  unfold bind. rewrite unlink_cases.
  destruct (unlink_succeeds removable w1); [| reflexivity].
  unfold print, log. simpl. rewrite <- app_assoc. reflexivity.
Qed.

(** C4, as the code has it: with OPENAI_API_KEY set to a non-empty value
    and the single argument "--reset", [main] unlinks the history path.
    When the unlink does not raise (the path is missing, which is no
    error, or it can be removed) the file is missing afterwards,
    "History cleared." is printed and [main] returns, for an exit status
    of 0; it does nothing else.  When the unlink raises, the error is not
    caught: nothing is printed, the path is as it was and the status
    is 1. *)
Theorem main_reset_with_key :
  forall json_loads json_dumps create disk removable stdout_encodes inv w prog,
    key_set inv ->
    sys_argv inv = [prog; "--reset"] ->
    (unlink_succeeds removable w = true ->
     main json_loads json_dumps create disk removable stdout_encodes inv w =
       (Ret tt,
        mkWorld Missing (w_trace w ++ [E_unlink; E_print "History cleared."]))
     /\ exit_status
          (fst (main json_loads json_dumps create disk removable stdout_encodes
                  inv w)) = 0%Z)
    /\ (unlink_succeeds removable w = false ->
        main json_loads json_dumps create disk removable stdout_encodes inv w =
          (Raise OSError, mkWorld (w_file w) (w_trace w ++ [E_unlink]))
        /\ exit_status
             (fst (main json_loads json_dumps create disk removable
                     stdout_encodes inv w)) = 1%Z).
Proof.
  intros json_loads json_dumps create disk removable stdout_encodes inv w prog
    Hkey Hargv.
  assert (Hp : get_prompt_from_args_or_stdin inv w = (Ret "--reset", w)).
  { unfold get_prompt_from_args_or_stdin, arguments. rewrite Hargv.
    reflexivity. }
  rewrite (main_reset json_loads json_dumps create disk removable
             stdout_encodes inv w w Hkey Hp).
  split; intros ->; split; reflexivity.
Qed.

Lemma main_reset_with_key_witness :
  main (loads_among []) dumps_indent2 (answering "ok") disk_ok can_remove
    stdout_utf8 (mkInvocation ["chatgpt"; "--reset"] env_with_key true [])
    (fresh (Text "[]")) =
  (Ret tt, mkWorld Missing [E_unlink; E_print "History cleared."])
  /\ main (loads_among []) dumps_indent2 (answering "ok") disk_ok
       cannot_remove stdout_utf8
       (mkInvocation ["chatgpt"; "--reset"] env_with_key true [])
       (fresh Missing) =
     (Ret tt, mkWorld Missing [E_unlink; E_print "History cleared."])
  /\ main (loads_among []) dumps_indent2 (answering "ok") disk_ok
       cannot_remove stdout_utf8
       (mkInvocation ["chatgpt"; "--reset"] env_with_key true [])
       (fresh Unreadable) =
     (Raise OSError, mkWorld Unreadable [E_unlink]).
Proof.
  assert (Hkey : key_set
                   (mkInvocation ["chatgpt"; "--reset"] env_with_key true []))
    by (exists "sk-test"; split; [reflexivity | discriminate]).
  split; [| split].
  - apply (proj1 (main_reset_with_key (loads_among []) dumps_indent2
                    (answering "ok") disk_ok can_remove stdout_utf8
                    (mkInvocation ["chatgpt"; "--reset"] env_with_key true [])
                    (fresh (Text "[]")) "chatgpt" Hkey eq_refl)).
    reflexivity.
  - apply (proj1 (main_reset_with_key (loads_among []) dumps_indent2
                    (answering "ok") disk_ok cannot_remove stdout_utf8
                    (mkInvocation ["chatgpt"; "--reset"] env_with_key true [])
                    (fresh Missing) "chatgpt" Hkey eq_refl)).
    reflexivity.
  - apply (proj2 (main_reset_with_key (loads_among []) dumps_indent2
                    (answering "ok") disk_ok cannot_remove stdout_utf8
                    (mkInvocation ["chatgpt"; "--reset"] env_with_key true [])
                    (fresh Unreadable) "chatgpt" Hkey eq_refl)).
    reflexivity.
Defined.

(** C4 as stated fails: with the single argument "--reset" but no
    OPENAI_API_KEY, the history file is still there afterwards, no
    confirmation is printed and the exit status is 1. *)
Lemma main_reset_without_key :
  let inv := mkInvocation ["chatgpt"; "--reset"] env_empty true [] in
  let run := main (loads_among []) dumps_indent2 (answering "ok") disk_ok
               can_remove stdout_utf8 inv (fresh (Text "[]")) in
  arguments inv = ["--reset"]
  /\ w_file (snd run) = Text "[]"
  /\ ~ In (E_print "History cleared.") (w_trace (snd run))
  /\ exit_status (fst run) = 1%Z.
Proof.
  cbv zeta. repeat split.
  simpl. intros [H | [H | []]]; discriminate.
Qed.

(** ** Remote calls that fail *)

Lemma quiet_ret : forall A (a : A), quiet (ret a).
Proof. intros A a w. exists []. simpl. rewrite app_nil_r. auto. Qed.

Lemma quiet_raise : forall A e, quiet (@raise A e).
Proof. intros A e w. exists []. simpl. rewrite app_nil_r. auto. Qed.

Lemma quiet_lift : forall A (r : outcome A), quiet (lift r).
Proof. intros A r w. exists []. simpl. rewrite app_nil_r. auto. Qed.

Lemma quiet_emit : forall e, is_create e = false -> quiet (emit e).
Proof. intros e He w. exists [e]. simpl. rewrite He. auto. Qed.

Lemma quiet_bind :
  forall A B (m : M A) (k : A -> M B),
    quiet m -> (forall a, quiet (k a)) -> quiet (bind m k).
Proof.
  intros A B m k Hm Hk w. unfold bind.
  destruct (Hm w) as [t1 [Ht1 Hq1]].
  destruct (m w) as [[a | e] w1]; simpl in Ht1.
  - destruct (Hk a w1) as [t2 [Ht2 Hq2]].
    exists (t1 ++ t2). rewrite Ht2, Ht1, app_assoc, filter_app, Hq1, Hq2.
    auto.
  - exists t1. auto.
Qed.

Lemma quiet_try_except :
  forall A (m : M A) catches handler,
    quiet m -> quiet handler -> quiet (try_except m catches handler).
Proof.
  intros A m catches handler Hm Hh w. unfold try_except.
  destruct (Hm w) as [t1 [Ht1 Hq1]].
  destruct (m w) as [[a | e] w1]; simpl in Ht1.
  - exists t1. auto.
  - destruct (catches e).
    + destruct (Hh w1) as [t2 [Ht2 Hq2]].
      exists (t1 ++ t2). rewrite Ht2, Ht1, app_assoc, filter_app, Hq1, Hq2.
      auto.
    + exists t1. auto.
Qed.

Lemma quiet_logged :
  forall A (f : world -> outcome A * world) e,
    is_create e = false ->
    (forall w, w_trace (snd (f w)) = w_trace w ++ [e]) ->
    quiet f.
Proof.
  intros A f e He Hf w. exists [e]. rewrite Hf. simpl. rewrite He. auto.
Qed.

Lemma quiet_load_history :
  forall json_loads, quiet (load_history json_loads).
Proof.
  intros json_loads. unfold load_history.
  apply quiet_bind.
  - apply quiet_logged with (e := E_exists); reflexivity.
  - intros [|]; [| apply quiet_ret].
    apply quiet_try_except; [| apply quiet_ret].
    apply quiet_bind.
    + apply quiet_logged with (e := E_read_text); reflexivity.
    + intros s. apply quiet_lift.
Qed.

Lemma quiet_save_history :
  forall json_dumps disk history, quiet (save_history json_dumps disk history).
Proof.
  intros json_dumps disk history. unfold save_history.
  apply quiet_try_except; [| apply quiet_ret].
  apply quiet_bind; [apply quiet_lift |].
  intros s. apply quiet_logged with (e := E_write_text s); [reflexivity |].
  intros w. unfold write_text.
  destruct (disk (count_writes (w_trace w))); reflexivity.
Qed.

Lemma quiet_isatty : forall inv, quiet (isatty inv).
Proof.
  intros inv. apply quiet_bind; [apply quiet_emit; reflexivity |].
  intros _. apply quiet_ret.
Qed.

Lemma quiet_get_prompt :
  forall inv, quiet (get_prompt_from_args_or_stdin inv).
Proof.
  intros inv. unfold get_prompt_from_args_or_stdin.
  destruct (1 <? List.length (sys_argv inv))%nat; [apply quiet_ret |].
  apply quiet_bind; [apply quiet_isatty |].
  intros [|]; simpl; [apply quiet_ret |].
  apply quiet_bind; [| intros s; apply quiet_ret].
  apply quiet_bind; [apply quiet_emit; reflexivity |].
  intros _. apply quiet_ret.
Qed.

Lemma quiet_print :
  forall stdout_encodes text, quiet (print stdout_encodes text).
Proof.
  intros stdout_encodes text w. unfold print.
  destruct (encodable stdout_encodes text).
  - exists [E_print text]. auto.
  - exists []. simpl. rewrite app_nil_r. auto.
Qed.

Ltac quiet_step := first [apply quiet_print | apply quiet_emit; reflexivity].

Section Uncaught.

Variable create : nat -> string -> pyval -> option string.

Lemma quiet_uncaught :
  forall A (m : M A), quiet m -> uncaught create m.
Proof.
  intros A m Hm w. destruct (Hm w) as [t [Ht Hq]].
  exists t. split; [exact Ht |].
  intros pre mo i post Hsplit _. exfalso.
  rewrite Hsplit, filter_app in Hq. simpl in Hq.
  apply app_eq_nil in Hq. destruct Hq as [_ Hq]. discriminate.
Qed.

Lemma uncaught_bind :
  forall A B (m : M A) (k : A -> M B),
    uncaught create m -> (forall a, uncaught create (k a)) ->
    uncaught create (bind m k).
Proof.
  intros A B m k Hm Hk w. unfold bind.
  destruct (Hm w) as [t1 [Ht1 Hf1]].
  destruct (m w) as [[a | e] w1]; simpl in Ht1, Hf1.
  - destruct (Hk a w1) as [t2 [Ht2 Hf2]].
    exists (t1 ++ t2). split; [rewrite Ht2, Ht1, app_assoc; reflexivity |].
    intros pre mo i post Hsplit Hnone.
    apply app_eq_app in Hsplit.
    destruct Hsplit as [l [[H1 H2] | [H1 H2]]].
    + destruct l as [| x l].
      * rewrite app_nil_r in H1. subst t1. simpl in H2.
        apply (Hf2 [] mo i post); [symmetry; exact H2 |].
        rewrite app_nil_r, Ht1. exact Hnone.
      * simpl in H2. inversion H2; subst x post.
        destruct (Hf1 pre mo i l H1 Hnone) as [_ Hr]. discriminate.
    + subst pre. apply (Hf2 l mo i post H2).
      rewrite Ht1, <- app_assoc. exact Hnone.
  - exists t1. split; [exact Ht1 |].
    intros pre mo i post Hsplit Hnone.
    destruct (Hf1 pre mo i post Hsplit Hnone) as [Hpost Hr].
    inversion Hr. auto.
Qed.

Lemma uncaught_responses_create :
  forall model v, uncaught create (responses_create create model v).
Proof.
  intros model v w. exists [E_create model v]. split; [reflexivity |].
  intros pre mo i post Hsplit Hnone.
  destruct pre as [| x pre].
  - simpl in Hsplit. inversion Hsplit; subst mo i post.
    rewrite app_nil_r in Hnone. split; [reflexivity |].
    unfold responses_create. simpl. rewrite Hnone. reflexivity.
  - inversion Hsplit as [[Hx Hrest]]. destruct pre; discriminate.
Qed.

Lemma uncaught_repl_iteration :
  forall json_dumps disk stdout_encodes line history model,
    uncaught create
      (repl_iteration json_dumps create disk stdout_encodes line history
         model).
Proof.
  intros json_dumps disk stdout_encodes line history model.
  unfold repl_iteration.
  apply uncaught_bind.
  - apply quiet_uncaught, quiet_try_except.
    + apply quiet_bind; [| intros l; apply quiet_ret].
      apply quiet_logged with (e := E_input "> "); reflexivity.
    + apply quiet_bind; [quiet_step |].
      intros _. apply quiet_ret.
  - intros [prompt |]; [| apply quiet_uncaught, quiet_ret].
    destruct (is_empty prompt); [apply quiet_uncaught, quiet_ret |].
    destruct (existsb _ _); [apply quiet_uncaught, quiet_ret |].
    apply uncaught_bind; [apply quiet_uncaught, quiet_lift |].
    intros h1. cbv zeta.
    apply uncaught_bind; [apply uncaught_responses_create |].
    intros text. apply quiet_uncaught.
    apply quiet_bind; [quiet_step | intros _].
    apply quiet_bind; [quiet_step | intros _].
    apply quiet_bind; [apply quiet_save_history | intros _].
    apply quiet_ret.
Qed.

Lemma uncaught_repl_loop :
  forall json_dumps disk stdout_encodes lines history model,
    uncaught create
      (repl_loop json_dumps create disk stdout_encodes lines history model).
Proof.
  intros json_dumps disk stdout_encodes lines.
  induction lines as [| line rest IH]; intros history model; simpl.
  - apply uncaught_bind; [apply uncaught_repl_iteration |].
    intros [h | h]; apply quiet_uncaught, quiet_ret.
  - apply uncaught_bind; [apply uncaught_repl_iteration |].
    intros [h | h]; [apply IH | apply quiet_uncaught, quiet_ret].
Qed.

Lemma uncaught_main :
  forall json_loads json_dumps disk removable stdout_encodes inv,
    uncaught create
      (main json_loads json_dumps create disk removable stdout_encodes inv).
Proof.
  intros json_loads json_dumps disk removable stdout_encodes inv.
  unfold main.
  destruct (not_set _).
  - apply quiet_uncaught.
    apply quiet_bind; [quiet_step | intros _].
    apply quiet_bind; [quiet_step | intros _].
    apply quiet_raise.
  - apply uncaught_bind; [apply quiet_uncaught, quiet_get_prompt |].
    intros prompt. destruct (String.eqb prompt "--reset").
    + apply quiet_uncaught.
      apply quiet_bind; [| intros _; quiet_step].
      apply quiet_logged with (e := E_unlink); [reflexivity |].
      intros w. rewrite unlink_cases.
      destruct (unlink_succeeds removable w); reflexivity.
    + apply uncaught_bind;
        [apply quiet_uncaught, quiet_emit; reflexivity | intros _].
      apply uncaught_bind.
      * apply quiet_uncaught.
        destruct (is_empty prompt); [apply quiet_isatty | apply quiet_ret].
      * intros [|].
        -- apply uncaught_bind;
             [apply quiet_uncaught, quiet_load_history | intros history].
           apply uncaught_bind; [| intros _; apply quiet_uncaught, quiet_ret].
           unfold repl.
           apply uncaught_bind;
             [apply quiet_uncaught, quiet_emit; reflexivity | intros _].
           apply uncaught_repl_loop.
        -- destruct (is_empty prompt).
           ++ apply quiet_uncaught.
              repeat (apply quiet_bind;
                      [quiet_step | intros _]).
              apply quiet_raise.
           ++ apply uncaught_bind;
                [apply quiet_uncaught, quiet_load_history | intros history].
              apply uncaught_bind; [apply quiet_uncaught, quiet_lift |].
              intros h1. cbv zeta.
              apply uncaught_bind; [apply uncaught_responses_create |].
              intros text. apply quiet_uncaught.
              apply quiet_bind; [quiet_step | intros _].
              apply quiet_save_history.
Qed.

End Uncaught.

(** C8: a remote call that fails is caught nowhere.  In every run of
    [main] such a call is the last action, the outcome is the exception
    it raised and the exit status is 1.  In a round of the interactive
    loop and on the one-shot path the world is then the one at the time
    of the call plus the call: the history file is the one from before,
    and there is no write after the call. *)
Theorem remote_failure_aborts :
  forall json_loads json_dumps create disk removable stdout_encodes,
    (forall inv w pre m i post,
       w_trace (snd (main json_loads json_dumps create disk removable
           stdout_encodes inv w)) =
         w_trace w ++ pre ++ E_create m i :: post ->
       create (count_creates (w_trace w ++ pre)) m i = None ->
       post = []
       /\ fst (main json_loads json_dumps create disk removable stdout_encodes
           inv w) = Raise APIError
       /\ exit_status (fst (main json_loads json_dumps create disk removable
           stdout_encodes inv w))
          = 1%Z)
    /\ (forall line rest items model w,
          strip line <> "" ->
          existsb (String.eqb (lower (strip line))) ["exit"; "quit"] = false ->
          create (count_creates (w_trace w)) model
            (PList (last_n 60 (items ++ [turn "user" (strip line)]))) = None ->
          repl_loop json_dumps create disk stdout_encodes (line :: rest)
              (PList items) model w
          = (Raise APIError,
             mkWorld (w_file w)
               (w_trace w ++
                  [E_input "> ";
                   E_create model
                     (PList (last_n 60 (items ++ [turn "user" (strip
                         line)])))])))
    /\ (forall inv w p w1 items w0,
          key_set inv ->
          get_prompt_from_args_or_stdin inv w = (Ret p, w1) ->
          p <> "" -> p <> "--reset" ->
          load_history json_loads (log E_OpenAI w1) = (Ret (PList items), w0) ->
          create (count_creates (w_trace w)) (model_of inv)
            (PList (last_n 60 (items ++ [turn "user" p]))) = None ->
          main json_loads json_dumps create disk removable stdout_encodes inv
              w =
            (Raise APIError,
             mkWorld (w_file w)
               (w_trace w0 ++
                  [E_create (model_of inv)
                     (PList (last_n 60 (items ++ [turn "user" p])))]))).
Proof.
  intros json_loads json_dumps create disk removable stdout_encodes.
  split; [| split].
  - intros inv w pre m i post Htrace Hnone.
    destruct (uncaught_main create json_loads json_dumps disk removable
                stdout_encodes inv w)
      as [t [Ht Hlast]].
    rewrite Ht in Htrace. apply app_inv_head in Htrace.
    destruct (Hlast pre m i post Htrace Hnone) as [Hpost Hr].
    rewrite Hr. auto.
  - intros line rest items model w Hne Hcmd Hnone.
    simpl repl_loop. unfold bind at 1.
    rewrite (repl_iteration_turn json_dumps create disk stdout_encodes) by
        assumption.
    unfold py_append. cbv beta iota zeta. rewrite Hnone.
    unfold log. simpl. rewrite <- app_assoc. reflexivity.
  - intros inv w p w1 items w0 Hkey Hp Hne Hreset Hload Hnone.
    destruct (get_prompt_returns inv w) as [p' [w1' [Hp' [Hfile1 [Hc1 _]]]]].
    rewrite Hp in Hp'. inversion Hp'; subst p' w1'.
    destruct (load_history_frame _ _ _ _ Hload) as [Hfile0 _].
    rewrite (main_one_shot json_loads json_dumps create disk removable
        stdout_encodes inv w p w1)
      by assumption.
    rewrite (one_shot_path_turn json_loads json_dumps create disk
        stdout_encodes p
               (model_of inv) _ _ _ Hload).
    unfold py_append. cbv beta iota zeta.
    rewrite count_creates_log by reflexivity. rewrite Hc1, Hnone.
    unfold log. simpl. simpl in Hfile0. rewrite Hfile0, Hfile1. reflexivity.
Qed.

Lemma remote_failure_aborts_witness :
  main (loads_among [PList []]) dumps_indent2 service_down disk_ok can_remove
      stdout_utf8
    (mkInvocation ["chatgpt"; "hello"] env_with_key true [])
    (fresh (Text "[]")) =
  (Raise APIError,
   mkWorld (Text "[]")
     [E_OpenAI; E_exists; E_read_text;
      E_create MODEL_DEFAULT (PList [turn "user" "hello"])])
  /\ repl_loop dumps_indent2 service_down disk_ok stdout_utf8 ["hello"; "again"]
       (PList []) MODEL_DEFAULT (fresh (Text "[]")) =
     (Raise APIError,
      mkWorld (Text "[]")
        [E_input "> "; E_create MODEL_DEFAULT (PList [turn "user" "hello"])]).
Proof.
  split.
  - apply (proj2 (proj2 (remote_failure_aborts (loads_among [PList []])
                           dumps_indent2 service_down disk_ok can_remove
                               stdout_utf8))
             (mkInvocation ["chatgpt"; "hello"] env_with_key true [])
             (fresh (Text "[]")) "hello" (fresh (Text "[]")) []
             (mkWorld (Text "[]") [E_OpenAI; E_exists; E_read_text])).
    + exists "sk-test". split; [reflexivity | discriminate].
    + reflexivity.
    + discriminate.
    + discriminate.
    + reflexivity.
    + reflexivity.
  - apply (proj1 (proj2 (remote_failure_aborts (loads_among [PList []])
                           dumps_indent2 service_down disk_ok can_remove
                               stdout_utf8))
             "hello" ["again"] [] MODEL_DEFAULT (fresh (Text "[]"))).
    + discriminate.
    + reflexivity.
    + reflexivity.
Defined.

(** ** The cap on the transcript *)

Lemma last_n_length :
  forall A n (l : list A), List.length (last_n n l) = Nat.min n (List.length l).
Proof. intros A n l. unfold last_n. rewrite length_skipn. lia. Qed.

Lemma last_n_suffix :
  forall A n (l : list A),
    l = firstn (List.length l - n) l ++ last_n n l.
Proof. intros A n l. unfold last_n. symmetry. apply firstn_skipn. Qed.

Lemma last_n_short :
  forall A n (l : list A), List.length l <= n -> last_n n l = l.
Proof.
  intros A n l Hlen. unfold last_n.
  replace (List.length l - n) with 0 by lia. reflexivity.
Qed.

(** C1, as the code has it: a turn sends the old transcript with the
    user turn appended, whole when that is at most 60 entries and cut to
    its last 60, in their order, when it is more.  Once the remote call
    has answered and the answer has been printed, what the turn hands to
    [save_history], and so keeps in memory and, the write willing, on
    disk, is what it sent followed by the assistant turn: one entry more
    than it sent, so at most 61 entries, and exactly 61 once the old
    transcript has 60 or more. *)
Theorem turn_saves_last_60_and_answer :
  forall json_loads json_dumps create disk removable stdout_encodes,
    (forall line items model w text,
       strip line <> "" ->
       existsb (String.eqb (lower (strip line))) ["exit"; "quit"] = false ->
       create (count_creates (w_trace w)) model
         (PList (last_n 60 (items ++ [turn "user" (strip line)])))
         = Some text ->
       encodable stdout_encodes (strip text) = true ->
       let sent := last_n 60 (items ++ [turn "user" (strip line)]) in
       let kept := sent ++ [turn "assistant" (strip text)] in
       exists w',
         repl_iteration json_dumps create disk stdout_encodes (Some line)
           (PList items) model w = (Ret (Continue (PList kept)), w')
         /\ In (E_create model (PList sent)) (w_trace w')
         /\ w_file w' =
              match json_dumps (PList kept) with
              | None => w_file w
              | Some s =>
                  file_after_write (disk (count_writes (w_trace w)))
                    (w_file w) s
              end)
    /\ (forall inv w p w1 items w0 text,
          key_set inv ->
          get_prompt_from_args_or_stdin inv w = (Ret p, w1) ->
          p <> "" -> p <> "--reset" ->
          load_history json_loads (log E_OpenAI w1) = (Ret (PList items), w0) ->
          create (count_creates (w_trace w)) (model_of inv)
            (PList (last_n 60 (items ++ [turn "user" p]))) = Some text ->
          encodable stdout_encodes (strip text) = true ->
          let sent := last_n 60 (items ++ [turn "user" p]) in
          let kept := sent ++ [turn "assistant" (strip text)] in
          exists w',
            main json_loads json_dumps create disk removable stdout_encodes
              inv w = (Ret tt, w')
            /\ In (E_create (model_of inv) (PList sent)) (w_trace w')
            /\ w_file w' =
                 match json_dumps (PList kept) with
                 | None => w_file w
                 | Some s =>
                     file_after_write (disk (count_writes (w_trace w)))
                       (w_file w) s
                 end)
    /\ (forall (items : list pyval) (user assistant : pyval),
          let sent := last_n 60 (items ++ [user]) in
          let kept := sent ++ [assistant] in
          (exists dropped, items ++ [user] = dropped ++ sent)
          /\ List.length sent = Nat.min 60 (List.length items + 1)
          /\ List.length kept = List.length sent + 1
          /\ (List.length items < 60 -> sent = items ++ [user])
          /\ (60 <= List.length items ->
              List.length sent = 60 /\ List.length kept = 61)).
Proof.
  intros json_loads json_dumps create disk removable stdout_encodes.
  split; [| split].
  - intros line items model w text Hne Hcmd Hsome Hprint sent kept.
    rewrite (repl_iteration_turn json_dumps create disk stdout_encodes)
      by assumption.
    unfold py_append. cbv beta iota zeta. rewrite Hsome, Hprint.
    eexists. split; [reflexivity |]. split.
    + apply save_history_trace. simpl. rewrite !in_app_iff. simpl. tauto.
    + rewrite save_history_cases. fold sent. fold kept.
      rewrite !count_writes_log by reflexivity.
      destruct (json_dumps (PList kept)); reflexivity.
  - intros inv w p w1 items w0 text Hkey Hp Hne Hreset Hload Hsome Hprint
      sent kept.
    destruct (get_prompt_returns inv w) as [p' [w1' [Hp' [Hf1 [Hc1 Hw1]]]]].
    rewrite Hp in Hp'. inversion Hp'; subst p' w1'.
    destruct (load_history_frame _ _ _ _ Hload) as [Hf0 [_ Hw0]].
    rewrite (main_one_shot json_loads json_dumps create disk removable
               stdout_encodes inv w p w1) by assumption.
    rewrite (one_shot_path_turn json_loads json_dumps create disk
               stdout_encodes p (model_of inv) _ _ _ Hload).
    unfold py_append. cbv beta iota zeta.
    rewrite count_creates_log by reflexivity. rewrite Hc1, Hsome, Hprint.
    eexists. split; [reflexivity |]. split.
    + apply save_history_trace. simpl. rewrite !in_app_iff. simpl. tauto.
    + rewrite save_history_cases. fold sent. fold kept.
      rewrite !count_writes_log by reflexivity.
      rewrite Hw0, count_writes_log by reflexivity. rewrite Hw1.
      simpl in Hf0. simpl w_file.
      destruct (json_dumps (PList kept)); simpl; rewrite Hf0, Hf1;
        reflexivity.
  - intros items user assistant sent kept.
    assert (Hlen : List.length sent = Nat.min 60 (List.length items + 1)).
    { unfold sent. rewrite last_n_length, length_app. reflexivity. }
    assert (Hkept : List.length kept = List.length sent + 1).
    { unfold kept. rewrite length_app. reflexivity. }
    split; [| split; [| split; [| split]]].
    + eexists. apply last_n_suffix.
    + exact Hlen.
    + exact Hkept.
    + intros Hshort. apply last_n_short. rewrite length_app. simpl. lia.
    + intros Hfull. lia.
Qed.

Lemma turn_saves_last_60_and_answer_witness :
  (exists w',
     main (loads_among [PList (exchanges 30)]) dumps_indent2 (answering "ok")
       disk_ok can_remove stdout_utf8
       (mkInvocation ["chatgpt"; "hello"] env_with_key true [])
       (fresh (Text (encode 0 (PList (exchanges 30))))) = (Ret tt, w')
     /\ w_file w' =
        Text (encode 0
                (PList (skipn 1 (exchanges 30)
                        ++ [turn "user" "hello"; turn "assistant" "ok"]))))
  /\ (exists w',
        repl_iteration dumps_indent2 (answering " fine ") disk_ok stdout_utf8
          (Some "  hi") (PList (exchanges 1)) MODEL_DEFAULT (fresh Missing)
        = (Ret (Continue
                  (PList (exchanges 1
                          ++ [turn "user" "hi"; turn "assistant" "fine"]))),
           w')
        /\ w_file w' =
           Text (encode 0
                   (PList (exchanges 1
                           ++ [turn "user" "hi"; turn "assistant" "fine"])))).
Proof.
  split.
  - destruct (proj1 (proj2 (turn_saves_last_60_and_answer
                              (loads_among [PList (exchanges 30)])
                              dumps_indent2 (answering "ok") disk_ok
                              can_remove stdout_utf8))
                (mkInvocation ["chatgpt"; "hello"] env_with_key true [])
                (fresh (Text (encode 0 (PList (exchanges 30)))))
                "hello"
                (fresh (Text (encode 0 (PList (exchanges 30)))))
                (exchanges 30)
                (mkWorld (Text (encode 0 (PList (exchanges 30))))
                   [E_OpenAI; E_exists; E_read_text])
                "ok")
      as [w' [Hmain [_ Hfile]]].
    + exists "sk-test". split; [reflexivity | discriminate].
    + reflexivity.
    + discriminate.
    + discriminate.
    + vm_compute. reflexivity.
    + reflexivity.
    + reflexivity.
    + exists w'. split; [exact Hmain |]. rewrite Hfile. reflexivity.
  - destruct (proj1 (turn_saves_last_60_and_answer
                       (loads_among []) dumps_indent2 (answering " fine ")
                       disk_ok can_remove stdout_utf8)
                "  hi" (exchanges 1) MODEL_DEFAULT (fresh Missing) " fine ")
      as [w' [Hround [_ Hfile]]].
    + discriminate.
    + reflexivity.
    + reflexivity.
    + reflexivity.
    + exists w'. split; [exact Hround |]. rewrite Hfile. reflexivity.
Defined.

(** C1 as stated fails: a one-shot turn on a stored transcript of 60
    entries leaves 61 entries in the history file, the last 59 of the old
    ones, the user turn and the assistant turn. *)
Lemma one_shot_persists_61_entries :
  let old := exchanges 30 in
  let run := main (loads_among [PList old]) dumps_indent2 (answering "ok")
               disk_ok can_remove stdout_utf8
               (mkInvocation ["chatgpt"; "hello"] env_with_key true [])
               (fresh (Text (encode 0 (PList old)))) in
  let kept := skipn 1 old ++ [turn "user" "hello"; turn "assistant" "ok"] in
  List.length old = 60
  /\ fst run = Ret tt
  /\ w_file (snd run) = Text (encode 0 (PList kept))
  /\ List.length kept = 61
  /\ ~ List.length kept <= 60.
Proof.
  cbv zeta. split; [reflexivity |]. split; [vm_compute; reflexivity |].
  split; [vm_compute; reflexivity |]. split; [reflexivity |].
  vm_compute. intros H.
  repeat match goal with
         | H : S _ <= S _ |- _ => apply le_S_n in H
         end.
  inversion H.
Qed.

(** * Further properties of the program *)

(** ** Stripping *)

Lemma lstrip_head :
  forall s c r, lstrip s = String c r -> isspace c = false.
Proof.
  induction s as [| a s IH]; intros c r H; simpl in H; [discriminate |].
  destruct (isspace a) eqn:Ha; [eauto |].
  inversion H; subst. exact Ha.
Qed.

Lemma rstrip_idempotent :
  forall s, rstrip (rstrip s) = rstrip s.
Proof.
  induction s as [| c s IH]; [reflexivity |].
  simpl. destruct (rstrip s) as [| d r] eqn:Hr.
  - destruct (isspace c) eqn:Hc; [reflexivity |].
    simpl. rewrite Hc. reflexivity.
  - change (rstrip (String c (String d r)))
      with (match rstrip (String d r) with
            | EmptyString =>
                if isspace c then EmptyString else String c EmptyString
            | String a b => String c (String a b)
            end).
    rewrite IH. reflexivity.
Qed.

Lemma rstrip_keeps_head :
  forall c s, isspace c = false -> exists r, rstrip (String c s) = String c r.
Proof.
  intros c s Hc. simpl. destruct (rstrip s) as [| d r].
  - rewrite Hc. eauto.
  - eauto.
Qed.

Lemma strip_idempotent :
  forall s, strip (strip s) = strip s.
Proof.
  intros s. unfold strip.
  destruct (lstrip s) as [| c t] eqn:Hl; [reflexivity |].
  destruct (rstrip_keeps_head c t (lstrip_head s c t Hl)) as [r Hr].
  rewrite Hr. simpl lstrip. rewrite (lstrip_head s c t Hl).
  rewrite <- Hr. apply rstrip_idempotent.
Qed.

(** ** Slices *)

Lemma last_n_snoc :
  forall A n (l : list A) x,
    exists before,
      last_n (S n) (l ++ [x]) = before ++ [x]
      /\ List.length before <= n
      /\ exists dropped, l = dropped ++ before.
Proof.
  intros A n l x. unfold last_n. rewrite length_app. simpl List.length.
  exists (skipn (List.length l + 1 - S n) l). split; [| split].
  - rewrite skipn_app.
    replace (List.length l + 1 - S n - List.length l) with 0 by lia.
    reflexivity.
  - rewrite length_skipn. lia.
  - exists (firstn (List.length l + 1 - S n) l). symmetry.
    apply firstn_skipn.
Qed.

(** ** Closed forms *)

(** A round of the loop, case by case. *)
Lemma repl_iteration_eof :
  forall json_dumps create disk stdout_encodes history model w,
    repl_iteration json_dumps create disk stdout_encodes None history model w =
      (Ret (Break history), log (E_print "") (log (E_input "> ") w)).
Proof. reflexivity. Qed.

Lemma repl_iteration_blank :
  forall json_dumps create disk stdout_encodes line history model w,
    strip line = "" ->
    repl_iteration json_dumps create disk stdout_encodes (Some line) history
        model w =
      (Ret (Continue history), log (E_input "> ") w).
Proof.
  intros json_dumps create disk stdout_encodes line history model w Hempty.
  unfold repl_iteration, bind at 1. rewrite read_prompt, Hempty.
  reflexivity.
Qed.

Lemma repl_iteration_leave :
  forall json_dumps create disk stdout_encodes line history model w,
    strip line <> "" ->
    existsb (String.eqb (lower (strip line))) ["exit"; "quit"] = true ->
    repl_iteration json_dumps create disk stdout_encodes (Some line) history
        model w =
      (Ret (Break history), log (E_input "> ") w).
Proof.
  intros json_dumps create disk stdout_encodes line history model w Hne Hcmd.
  unfold repl_iteration, bind at 1. rewrite read_prompt.
  destruct (strip line) as [| c p] eqn:Hstrip; [congruence |].
  change (is_empty (String c p)) with false. cbv iota.
  rewrite Hcmd. reflexivity.
Qed.

Lemma key_not_set_key_set :
  forall inv, not_set (getenv inv "OPENAI_API_KEY") = false -> key_set inv.
Proof.
  intros inv H. unfold getenv, key_set in *.
  destruct (environ inv "OPENAI_API_KEY") as [k |]; [| discriminate].
  exists k. split; [reflexivity |]. intros ->. discriminate.
Qed.

(** With the key set, an empty prompt and a standard input that is not a
    terminal, [main] creates the client, prints the usage and exits. *)
Lemma main_usage :
  forall json_loads json_dumps create disk removable stdout_encodes inv w w1,
    key_set inv ->
    get_prompt_from_args_or_stdin inv w = (Ret "", w1) ->
    stdin_isatty inv = false ->
    main json_loads json_dumps create disk removable stdout_encodes inv w =
      (Raise (SystemExit 2),
       mkWorld (w_file w1)
         (w_trace w1 ++
            [E_OpenAI; E_isatty;
             E_print_err "Usage:";
             E_print_err
               (String.concat dquote ["  chatgpt "; "Your question here"; ""]);
             E_print_err "  chatgpt explain bfs";
             E_print_err "  cat file.txt | chatgpt";
             E_print_err "  chatgpt --reset"])).
Proof.
  intros json_loads json_dumps create disk removable stdout_encodes inv w w1
      Hkey Hp Htty.
  unfold main. rewrite (key_set_not_set inv Hkey).
  unfold bind at 1. rewrite Hp. simpl String.eqb. cbv iota.
  run. rewrite Htty. simpl. unfold log. simpl.
  rewrite <- !app_assoc. reflexivity.
Qed.

(** ** The prompt, again *)

Lemma get_prompt_closed :
  forall inv w,
    get_prompt_from_args_or_stdin inv w =
      (Ret (prompt_of inv),
       mkWorld (w_file w) (w_trace w ++ prompt_events inv)).
Proof.
  intros inv w.
  unfold get_prompt_from_args_or_stdin, prompt_of, prompt_events, arguments.
  destruct w as [f t].
  destruct (sys_argv inv) as [| prog [| a args]]; simpl.
  - run. destruct (stdin_isatty inv); unfold log; simpl;
      rewrite <- ?app_assoc; reflexivity.
  - run. destruct (stdin_isatty inv); unfold log; simpl;
      rewrite <- ?app_assoc; reflexivity.
  - unfold ret. rewrite app_nil_r. reflexivity.
Qed.

(** X1: the prompt never has whitespace at either end: stripping it again
    changes nothing.  Resolving it returns for every invocation, leaves
    the history file alone and makes no remote call. *)
Theorem prompt_is_stripped :
  forall inv w,
    exists p w1,
      get_prompt_from_args_or_stdin inv w = (Ret p, w1)
      /\ strip p = p
      /\ w_file w1 = w_file w
      /\ count_creates (w_trace w1) = count_creates (w_trace w).
Proof.
  intros inv w. rewrite get_prompt_closed.
  eexists; eexists. split; [reflexivity |]. split; [| split].
  - unfold prompt_of. destruct (arguments inv).
    + destruct (stdin_isatty inv); [reflexivity | apply strip_idempotent].
    + apply strip_idempotent.
  - reflexivity.
  - unfold count_creates. simpl. rewrite filter_app.
    unfold prompt_events. destruct (arguments inv);
      [destruct (stdin_isatty inv) |]; simpl; rewrite app_nil_r;
      reflexivity.
Qed.

(** ** The usage message *)

(** X2: with the key set, a prompt that is empty (no arguments and an
    empty pipe, or arguments that are all whitespace) and a standard
    input that is not a terminal, [main] creates the client, prints the
    five usage lines to the error stream and exits with status 2; the
    history file is neither read nor written and no remote call is
    made. *)
Theorem main_usage_exit_2 :
  forall json_loads json_dumps create disk removable stdout_encodes inv w,
    key_set inv ->
    prompt_of inv = "" ->
    stdin_isatty inv = false ->
    main json_loads json_dumps create disk removable stdout_encodes inv w =
      (Raise (SystemExit 2),
       mkWorld (w_file w)
         (w_trace w ++ prompt_events inv ++ [E_OpenAI; E_isatty] ++
             usage_lines))
    /\ exit_status (fst (main json_loads json_dumps create disk removable
        stdout_encodes inv w)) = 2%Z.
Proof.
  intros json_loads json_dumps create disk removable stdout_encodes inv w Hkey
      Hp Htty.
  assert (Hget := get_prompt_closed inv w). rewrite Hp in Hget.
  assert (Hmain := main_usage json_loads json_dumps create disk removable
      stdout_encodes inv w _
                     Hkey Hget Htty).
  simpl in Hmain. rewrite <- app_assoc in Hmain.
  split; [exact Hmain | rewrite Hmain; reflexivity].
Qed.

Lemma main_usage_exit_2_witness :
  exit_status
    (fst (main (loads_among []) dumps_indent2 (answering "ok") disk_ok
        can_remove stdout_utf8
            (mkInvocation ["chatgpt"; "  "] env_with_key false ["ignored"])
            (fresh (Text "[]")))) = 2%Z
  /\ exit_status
       (fst (main (loads_among []) dumps_indent2 (answering "ok") disk_ok
           can_remove stdout_utf8
               (mkInvocation ["chatgpt"] env_with_key false [" "; ""])
               (fresh (Text "[]")))) = 2%Z.
Proof.
  split.
  - apply (main_usage_exit_2 (loads_among []) dumps_indent2 (answering "ok")
             disk_ok can_remove stdout_utf8
             (mkInvocation ["chatgpt"; "  "] env_with_key false ["ignored"])
             (fresh (Text "[]"))).
    + exists "sk-test". split; [reflexivity | discriminate].
    + reflexivity.
    + reflexivity.
  - apply (main_usage_exit_2 (loads_among []) dumps_indent2 (answering "ok")
             disk_ok can_remove stdout_utf8 (mkInvocation ["chatgpt"]
                 env_with_key false [" "; ""])
             (fresh (Text "[]"))).
    + exists "sk-test". split; [reflexivity | discriminate].
    + reflexivity.
    + reflexivity.
Defined.

(** ** Reset, from any source *)

Lemma count_unlinks_prompt :
  forall inv t,
    count_unlinks (t ++ prompt_events inv) = count_unlinks t.
Proof.
  intros inv t. unfold count_unlinks, prompt_events.
  rewrite filter_app, length_app.
  destruct (arguments inv); [destruct (stdin_isatty inv) |]; simpl; lia.
Qed.

(** X3: with the key set, a prompt that is "--reset" clears the history
    wherever the prompt came from (piped text does it as well as an
    argument).  When the unlink does not raise (the path is missing or
    can be removed) the file is missing afterwards, the confirmation is
    printed and the status is 0; when it raises, its error ends the run
    with status 1, nothing printed and the path as it was.  Either way
    the client is not created and the history is not loaded. *)
Theorem main_reset_any_source :
  forall json_loads json_dumps create disk removable stdout_encodes inv w,
    key_set inv ->
    prompt_of inv = "--reset" ->
    (unlink_succeeds removable w = true ->
     main json_loads json_dumps create disk removable stdout_encodes inv w =
       (Ret tt,
        mkWorld Missing
          (w_trace w ++ prompt_events inv
             ++ [E_unlink; E_print "History cleared."]))
     /\ exit_status
          (fst (main json_loads json_dumps create disk removable stdout_encodes
                  inv w)) = 0%Z)
    /\ (unlink_succeeds removable w = false ->
        main json_loads json_dumps create disk removable stdout_encodes inv w =
          (Raise OSError,
           mkWorld (w_file w) (w_trace w ++ prompt_events inv ++ [E_unlink]))
        /\ exit_status
             (fst (main json_loads json_dumps create disk removable
                     stdout_encodes inv w)) = 1%Z).
Proof.
  intros json_loads json_dumps create disk removable stdout_encodes inv w
    Hkey Hp.
  assert (Hget := get_prompt_closed inv w). rewrite Hp in Hget.
  rewrite (main_reset json_loads json_dumps create disk removable
             stdout_encodes inv w _ Hkey Hget).
  assert (Hsame :
    unlink_succeeds removable
      (mkWorld (w_file w) (w_trace w ++ prompt_events inv))
    = unlink_succeeds removable w).
  { unfold unlink_succeeds. simpl. rewrite count_unlinks_prompt.
    reflexivity. }
  rewrite Hsame. simpl w_trace. simpl w_file. rewrite <- !app_assoc.
  split; intros ->; split; reflexivity.
Qed.

Lemma main_reset_any_source_witness :
  main (loads_among []) dumps_indent2 (answering "ok") disk_ok can_remove
    stdout_utf8 (mkInvocation ["chatgpt"] env_with_key false ["  --reset"])
    (fresh (Text "[]")) =
  (Ret tt,
   mkWorld Missing
     [E_isatty; E_stdin_read; E_unlink; E_print "History cleared."])
  /\ main (loads_among []) dumps_indent2 (answering "ok") disk_ok
       cannot_remove stdout_utf8
       (mkInvocation ["chatgpt"] env_with_key false ["  --reset"])
       (fresh (Text "[]")) =
     (Raise OSError,
      mkWorld (Text "[]") [E_isatty; E_stdin_read; E_unlink]).
Proof.
  assert (Hkey : key_set
                   (mkInvocation ["chatgpt"] env_with_key false ["  --reset"]))
    by (exists "sk-test"; split; [reflexivity | discriminate]).
  split.
  - apply (proj1 (main_reset_any_source (loads_among []) dumps_indent2
                    (answering "ok") disk_ok can_remove stdout_utf8
                    (mkInvocation ["chatgpt"] env_with_key false
                       ["  --reset"])
                    (fresh (Text "[]")) Hkey eq_refl)).
    reflexivity.
  - apply (proj2 (main_reset_any_source (loads_among []) dumps_indent2
                    (answering "ok") disk_ok cannot_remove stdout_utf8
                    (mkInvocation ["chatgpt"] env_with_key false
                       ["  --reset"])
                    (fresh (Text "[]")) Hkey eq_refl)).
    reflexivity.
Defined.

(** ** Sessions *)

Lemma main_interactive_closed :
  forall json_loads json_dumps create disk removable stdout_encodes inv w,
    key_set inv ->
    prompt_of inv = "" ->
    stdin_isatty inv = true ->
    main json_loads json_dumps create disk removable stdout_encodes inv w =
      interactive_path json_loads json_dumps create disk stdout_encodes inv
          (model_of inv)
        (mkWorld (w_file w)
           (w_trace w ++ prompt_events inv ++ [E_OpenAI; E_isatty])).
Proof.
  intros json_loads json_dumps create disk removable stdout_encodes inv w Hkey
      Hp Htty.
  assert (Hget := get_prompt_closed inv w). rewrite Hp in Hget.
  rewrite (main_interactive json_loads json_dumps create disk removable
      stdout_encodes inv w _
             Hkey Hget Htty).
  unfold log. simpl. rewrite <- !app_assoc. reflexivity.
Qed.

Lemma main_one_shot_closed :
  forall json_loads json_dumps create disk removable stdout_encodes inv w,
    key_set inv ->
    prompt_of inv <> "" ->
    prompt_of inv <> "--reset" ->
    main json_loads json_dumps create disk removable stdout_encodes inv w =
      one_shot_path json_loads json_dumps create disk stdout_encodes
          (prompt_of inv)
        (model_of inv)
        (mkWorld (w_file w) (w_trace w ++ prompt_events inv ++ [E_OpenAI])).
Proof.
  intros json_loads json_dumps create disk removable stdout_encodes inv w Hkey
      Hne Hreset.
  rewrite (main_one_shot json_loads json_dumps create disk removable
      stdout_encodes inv w _ _
             Hkey (get_prompt_closed inv w) Hne Hreset).
  unfold log. simpl. rewrite <- !app_assoc. reflexivity.
Qed.

Lemma repl_loop_blank :
  forall json_dumps create disk stdout_encodes lines history model w,
    Forall (fun line => strip line = "") lines ->
    repl_loop json_dumps create disk stdout_encodes lines history model w =
      (Ret history,
       mkWorld (w_file w)
         (w_trace w ++ repeat (E_input "> ") (List.length lines)
            ++ [E_input "> "; E_print ""])).
Proof.
  intros json_dumps create disk stdout_encodes lines history model.
  induction lines as [| line rest IH]; intros w Hblank.
  - simpl. unfold bind. rewrite repl_iteration_eof.
    unfold ret, log. simpl. rewrite <- app_assoc. reflexivity.
  - inversion Hblank as [| ? ? Hline Hrest]; subst.
    simpl repl_loop. unfold bind at 1.
    rewrite repl_iteration_blank by assumption.
    rewrite IH by assumption.
    unfold log. simpl. rewrite <- app_assoc. reflexivity.
Qed.

(** X4: an interactive session in which every line is blank ends at the
    end of the input with status 0: [repl] asks for each line and once
    more, prints the welcome line first and an empty line last, makes no
    remote call, and neither the transcript nor the history file
    changes. *)
Theorem blank_session_ends_cleanly :
  forall json_loads json_dumps create disk removable stdout_encodes inv w
      history w0,
    key_set inv ->
    prompt_of inv = "" ->
    stdin_isatty inv = true ->
    Forall (fun line => strip line = "") (stdin_lines inv) ->
    load_history json_loads
      (mkWorld (w_file w)
         (w_trace w ++ prompt_events inv ++ [E_OpenAI; E_isatty]))
      = (Ret history, w0) ->
    repl json_dumps create disk stdout_encodes inv history (model_of inv) w0 =
      (Ret history,
       mkWorld (w_file w)
         (w_trace w0
            ++ [E_print "Welcome to the terminal of GPT (to quit -> 'exit')"]
            ++ repeat (E_input "> ") (List.length (stdin_lines inv))
            ++ [E_input "> "; E_print ""]))
    /\ main json_loads json_dumps create disk removable stdout_encodes inv w =
         (Ret tt,
          snd (repl json_dumps create disk stdout_encodes inv history
              (model_of inv) w0))
    /\ exit_status (fst (main json_loads json_dumps create disk removable
        stdout_encodes inv w)) = 0%Z.
Proof.
  intros json_loads json_dumps create disk removable stdout_encodes inv w
      history w0
    Hkey Hp Htty Hblank Hload.
  destruct (load_history_frame _ _ _ _ Hload) as [Hfile0 _].
  simpl in Hfile0.
  assert (Hrepl :
    repl json_dumps create disk stdout_encodes inv history (model_of inv) w0 =
      (Ret history,
       mkWorld (w_file w)
         (w_trace w0
            ++ [E_print "Welcome to the terminal of GPT (to quit -> 'exit')"]
            ++ repeat (E_input "> ") (List.length (stdin_lines inv))
            ++ [E_input "> "; E_print ""]))).
  { unfold repl, bind. rewrite print_ascii by reflexivity.
    rewrite repl_loop_blank by assumption.
    unfold log. simpl. rewrite Hfile0, <- app_assoc. reflexivity. }
  assert (Hmain :
    main json_loads json_dumps create disk removable stdout_encodes inv w =
      (Ret tt,
       snd (repl json_dumps create disk stdout_encodes inv history (model_of
           inv) w0))).
  { rewrite main_interactive_closed by assumption.
    unfold interactive_path, bind at 1. rewrite Hload.
    unfold bind at 1. rewrite Hrepl. reflexivity. }
  split; [exact Hrepl |]. split; [exact Hmain |].
  rewrite Hmain. reflexivity.
Qed.

Lemma blank_session_ends_cleanly_witness :
  main (loads_among [PList []]) dumps_indent2 (answering "ok") disk_ok
      can_remove stdout_utf8
    (mkInvocation ["chatgpt"] env_with_key true [""; "   "])
    (fresh (Text "[]")) =
  (Ret tt,
   mkWorld (Text "[]")
     [E_isatty; E_OpenAI; E_isatty; E_exists; E_read_text;
      E_print "Welcome to the terminal of GPT (to quit -> 'exit')";
      E_input "> "; E_input "> "; E_input "> "; E_print ""]).
Proof.
  destruct (blank_session_ends_cleanly (loads_among [PList []]) dumps_indent2
              (answering "ok") disk_ok can_remove stdout_utf8
              (mkInvocation ["chatgpt"] env_with_key true [""; "   "])
              (fresh (Text "[]")) (PList [])
              (mkWorld (Text "[]")
                 [E_isatty; E_OpenAI; E_isatty; E_exists; E_read_text]))
    as [Hrepl [Hmain _]].
  - exists "sk-test". split; [reflexivity | discriminate].
  - reflexivity.
  - reflexivity.
  - repeat constructor.
  - reflexivity.
  - rewrite Hmain, Hrepl. reflexivity.
Defined.

(** ** What a run logs, sends and raises *)

Lemma sent_shape_turn :
  forall items p,
    p <> "" -> strip p = p ->
    sent_shape (PList (last_n 60 (items ++ [turn "user" p]))).
Proof.
  intros items p Hne Hstrip.
  destruct (last_n_snoc pyval 59 items (turn "user" p))
    as [before [Heq [Hlen _]]].
  exists before, p. rewrite Heq. repeat split; auto. lia.
Qed.

Lemma kept_length :
  forall (items : list pyval) (u a : pyval),
    2 <= List.length (last_n 60 (items ++ [u]) ++ [a]) <= 61.
Proof.
  intros items u a. rewrite length_app, last_n_length, length_app.
  cbn [List.length]. lia.
Qed.

Lemma save_history_adds :
  forall json_dumps disk history w,
    exists ts,
      w_trace (snd (save_history json_dumps disk history w)) = w_trace w ++ ts
      /\ filter is_create ts = []
      /\ List.length (filter is_write_text ts) <= 1
      /\ Forall (fun e => is_create e = false) ts.
Proof.
  intros json_dumps disk history w. rewrite save_history_cases.
  destruct (json_dumps history) as [s |].
  - exists [E_write_text s]. simpl. repeat split; auto.
  - exists []. simpl. rewrite app_nil_r. repeat split; auto.
Qed.

Lemma call_ok_not_create :
  forall model ts,
    Forall (fun e => is_create e = false) ts -> Forall (call_ok model) ts.
Proof.
  intros model ts H. eapply Forall_impl; [| exact H].
  intros [] He; simpl; auto; discriminate.
Qed.

Ltac plain_events :=
  try (repeat (apply Forall_cons; [exact I |]); apply Forall_nil).

(** What one round of the loop does to the trace and the transcript. *)
Lemma repl_iteration_summary :
  forall json_dumps create disk stdout_encodes line history model w,
    exists t,
      w_trace (snd (repl_iteration json_dumps create disk stdout_encodes line
                      history model w))
        = w_trace w ++ t
      /\ Forall (call_ok model) t
      /\ count_creates t <= 1
      /\ count_writes t <= count_creates t
      /\ match fst (repl_iteration json_dumps create disk stdout_encodes line
                      history model w)
         with
         | Ret (Continue h) =>
             line <> None
             /\ (h = history
                 \/ exists l, h = PList l /\ 2 <= List.length l <= 61)
         | Ret (Break h) => h = history
         | Raise e =>
             e = APIError
             \/ e = UnicodeEncodeError
             \/ (e = AttributeError /\ forall l, history <> PList l)
         end.
Proof.
  intros json_dumps create disk stdout_encodes line history model w.
  destruct line as [line |].
  2: { rewrite repl_iteration_eof. exists [E_input "> "; E_print ""].
       simpl. rewrite <- app_assoc. repeat split; auto; plain_events. }
  destruct (string_dec (strip line) "") as [Hblank | Hne].
  { rewrite repl_iteration_blank by assumption. exists [E_input "> "].
    simpl. repeat split; auto; plain_events. discriminate. }
  destruct (existsb (String.eqb (lower (strip line))) ["exit"; "quit"])
    eqn:Hcmd.
  { rewrite repl_iteration_leave by assumption. exists [E_input "> "].
    simpl. repeat split; auto; plain_events. }
  rewrite (repl_iteration_turn json_dumps create disk stdout_encodes)
    by assumption.
  destruct history as [| b | n | r | s | items | items];
    try (exists [E_input "> "]; simpl; repeat split; auto; plain_events;
         right; right; split; [reflexivity | intros l; discriminate]).
  unfold py_append. cbv beta iota zeta.
  assert (Hshape :
    call_ok model
      (E_create model
         (PList (last_n 60 (items ++ [turn "user" (strip line)]))))).
  { simpl. split; [reflexivity |].
    apply sent_shape_turn; [exact Hne | apply strip_idempotent]. }
  assert (Hcall :
    exists t,
      w_trace w ++
        [E_input "> ";
         E_create model
           (PList (last_n 60 (items ++ [turn "user" (strip line)])))]
      = w_trace w ++ t
      /\ Forall (call_ok model) t
      /\ count_creates t <= 1
      /\ count_writes t <= count_creates t).
  { eexists. split; [reflexivity |].
    split; [apply Forall_cons; [exact I |];
            apply Forall_cons; [exact Hshape |]; plain_events |].
    unfold count_creates, count_writes. simpl. auto. }
  destruct (create (count_creates (w_trace w)) model _) as [text |].
  2: { simpl fst. simpl snd. simpl w_trace. rewrite <- app_assoc.
       destruct Hcall as [t [Ht [Hok [Hc Hw]]]].
       exists t. repeat split; auto. }
  destruct (encodable stdout_encodes (strip text)).
  2: { simpl fst. simpl snd. simpl w_trace. rewrite <- app_assoc.
       destruct Hcall as [t [Ht [Hok [Hc Hw]]]].
       exists t. repeat split; auto. }
  simpl fst. simpl snd.
  destruct (save_history_adds json_dumps disk
              (PList (last_n 60 (items ++ [turn "user" (strip line)])
                      ++ [turn "assistant" (strip text)]))
              (log (E_print "")
                 (log (E_print (strip text))
                    (log (E_create model
                            (PList (last_n 60
                                      (items ++ [turn "user" (strip line)]))))
                       (log (E_input "> ") w)))))
    as [ts [Hts [Hnc [Hw Hall]]]].
  exists ([E_input "> ";
           E_create model
             (PList (last_n 60 (items ++ [turn "user" (strip line)])));
           E_print (strip text); E_print ""] ++ ts).
  split; [| split; [| split; [| split]]].
  - rewrite Hts. simpl. rewrite <- !app_assoc. reflexivity.
  - apply Forall_app. split.
    + apply Forall_cons; [exact I |].
      apply Forall_cons; [exact Hshape |]. plain_events.
    + apply call_ok_not_create. exact Hall.
  - unfold count_creates. rewrite filter_app, Hnc. simpl. lia.
  - unfold count_writes, count_creates.
    rewrite !filter_app, Hnc. simpl. exact Hw.
  - split; [discriminate |]. right. eexists. split; [reflexivity |].
    apply kept_length.
Qed.

Lemma count_creates_app :
  forall t1 t2, count_creates (t1 ++ t2) = count_creates t1 + count_creates t2.
Proof.
  intros t1 t2. unfold count_creates. rewrite filter_app. apply length_app.
Qed.

Lemma count_writes_app :
  forall t1 t2, count_writes (t1 ++ t2) = count_writes t1 + count_writes t2.
Proof.
  intros t1 t2. unfold count_writes. rewrite filter_app. apply length_app.
Qed.

Lemma repl_loop_cons :
  forall json_dumps create disk stdout_encodes line rest history model w,
    repl_loop json_dumps create disk stdout_encodes (line :: rest) history
      model w =
      match repl_iteration json_dumps create disk stdout_encodes (Some line)
              history model w
      with
      | (Ret (Continue h), w1) =>
          repl_loop json_dumps create disk stdout_encodes rest h model w1
      | (Ret (Break h), w1) => (Ret h, w1)
      | (Raise e, w1) => (Raise e, w1)
      end.
Proof.
  intros. simpl repl_loop. unfold bind at 1.
  destruct (repl_iteration json_dumps create disk stdout_encodes (Some line)
              history model w)
    as [[[h | h] | e] w1]; reflexivity.
Qed.

(** What the loop does to the trace and the transcript. *)
Lemma repl_loop_summary :
  forall json_dumps create disk stdout_encodes lines history model w,
    exists t,
      w_trace (snd (repl_loop json_dumps create disk stdout_encodes lines
                      history model w))
        = w_trace w ++ t
      /\ Forall (call_ok model) t
      /\ count_creates t <= List.length lines
      /\ count_writes t <= count_creates t
      /\ match fst (repl_loop json_dumps create disk stdout_encodes lines
                      history model w)
         with
         | Ret h =>
             h = history \/ exists l, h = PList l /\ 2 <= List.length l <= 61
         | Raise e =>
             e = APIError
             \/ e = UnicodeEncodeError
             \/ (e = AttributeError /\ forall l, history <> PList l)
         end.
Proof.
  intros json_dumps create disk stdout_encodes lines.
  induction lines as [| line rest IH]; intros history model w.
  - simpl repl_loop. unfold bind. rewrite repl_iteration_eof.
    exists [E_input "> "; E_print ""]. simpl. rewrite <- app_assoc.
    repeat split; auto; plain_events.
  - rewrite repl_loop_cons.
    destruct (repl_iteration_summary json_dumps create disk stdout_encodes
                (Some line) history model w)
      as [t1 [Ht1 [Hok1 [Hc1 [Hw1 Hr1]]]]].
    destruct (repl_iteration json_dumps create disk stdout_encodes (Some line)
                history model w) as [[[h | h] | e] w1]; simpl in Ht1, Hr1.
    + destruct (IH h model w1) as [t2 [Ht2 [Hok2 [Hc2 [Hw2 Hr2]]]]].
      exists (t1 ++ t2). split; [| split; [| split; [| split]]].
      * rewrite Ht2, Ht1, app_assoc. reflexivity.
      * apply Forall_app. auto.
      * rewrite count_creates_app. simpl. lia.
      * rewrite count_writes_app, count_creates_app. lia.
      * destruct Hr1 as [_ Hh].
        destruct (fst (repl_loop json_dumps create disk stdout_encodes rest h
                         model w1))
          as [hf | e].
        -- destruct Hr2 as [-> | Hl]; [exact Hh | right; exact Hl].
        -- destruct Hr2 as [He | [He | [He Hnl]]];
             [left; exact He | right; left; exact He |].
           destruct Hh as [-> | [l [-> _]]];
             [right; right; auto | exfalso; apply (Hnl l); reflexivity].
    + exists t1. simpl. repeat split; auto. lia.
    + exists t1. simpl. repeat split; auto. lia.
Qed.

(** What [load_history] does to the world, and what it gives. *)
Lemma load_history_summary :
  forall json_loads w,
    exists tl,
      snd (load_history json_loads w) = mkWorld (w_file w) (w_trace w ++ tl)
      /\ Forall (fun e => is_create e = false) tl
      /\ count_creates tl = 0
      /\ count_writes tl = 0
      /\ match fst (load_history json_loads w) with
         | Ret v =>
             v = PList []
             \/ exists s, w_file w = Text s /\ json_loads s = Some v
         | Raise e => e = OSError /\ w_file w = Inaccessible
         end.
Proof.
  intros json_loads w. rewrite load_history_cases.
  destruct (w_file w) as [| s | |] eqn:Hfile.
  - exists [E_exists]. unfold log. rewrite Hfile. simpl.
    repeat split; auto.
  - exists [E_exists; E_read_text].
    unfold log. simpl. rewrite Hfile, <- app_assoc.
    repeat split; auto.
    destruct (json_loads s) as [v |] eqn:Hv; [right; eauto | left; auto].
  - exists [E_exists; E_read_text].
    unfold log. simpl. rewrite Hfile, <- app_assoc.
    repeat split; auto.
  - exists [E_exists]. unfold log. rewrite Hfile. simpl.
    repeat split; auto.
Qed.

Lemma main_no_key :
  forall json_loads json_dumps create disk removable stdout_encodes inv w,
    not_set (getenv inv "OPENAI_API_KEY") = true ->
    main json_loads json_dumps create disk removable stdout_encodes inv w =
      (Raise (SystemExit 1),
       mkWorld (w_file w)
         (w_trace w ++
            [E_print_err "Error: OPENAI_API_KEY is not set.";
             E_print_err "Set it with: export OPENAI_API_KEY='sk-...'"])).
Proof.
  intros json_loads json_dumps create disk removable stdout_encodes inv w Hkey.
  unfold main. rewrite Hkey. run. unfold log. simpl.
  rewrite <- app_assoc. reflexivity.
Qed.

Lemma prompt_events_plain :
  forall inv,
    Forall (fun e => is_create e = false) (prompt_events inv)
    /\ count_creates (prompt_events inv) = 0
    /\ count_writes (prompt_events inv) = 0.
Proof.
  intros inv. unfold prompt_events.
  destruct (arguments inv); [destruct (stdin_isatty inv) |];
    repeat split; auto.
Qed.

Lemma load_history_split :
  forall json_loads w v,
    fst (load_history json_loads w) = Ret v ->
    load_history json_loads w = (Ret v, snd (load_history json_loads w)).
Proof.
  intros json_loads w v H.
  destruct (load_history json_loads w) as [r w0]. simpl in H. subst r.
  reflexivity.
Qed.

Lemma load_history_split_raise :
  forall json_loads w e,
    fst (load_history json_loads w) = Raise e ->
    load_history json_loads w = (Raise e, snd (load_history json_loads w)).
Proof.
  intros json_loads w e H.
  destruct (load_history json_loads w) as [r w0]. simpl in H. subst r.
  reflexivity.
Qed.

Lemma one_shot_path_load_raises :
  forall json_loads json_dumps create disk stdout_encodes p model w e w0,
    load_history json_loads w = (Raise e, w0) ->
    one_shot_path json_loads json_dumps create disk stdout_encodes p model w
      = (Raise e, w0).
Proof.
  intros json_loads json_dumps create disk stdout_encodes p model w e w0 H.
  unfold one_shot_path, bind at 1. rewrite H. reflexivity.
Qed.

Lemma interactive_path_load_raises :
  forall json_loads json_dumps create disk stdout_encodes inv model w e w0,
    load_history json_loads w = (Raise e, w0) ->
    interactive_path json_loads json_dumps create disk stdout_encodes inv
      model w = (Raise e, w0).
Proof.
  intros json_loads json_dumps create disk stdout_encodes inv model w e w0 H.
  unfold interactive_path, bind at 1. rewrite H. reflexivity.
Qed.

Lemma one_shot_path_summary :
  forall json_loads json_dumps create disk stdout_encodes p model w,
    p <> "" -> strip p = p ->
    exists t,
      w_trace (snd (one_shot_path json_loads json_dumps create disk
                      stdout_encodes p model w))
        = w_trace w ++ t
      /\ Forall (call_ok model) t
      /\ count_creates t <= 1
      /\ count_writes t <= count_creates t
      /\ match fst (one_shot_path json_loads json_dumps create disk
                      stdout_encodes p model w)
         with
         | Ret _ => True
         | Raise e => bad_end json_loads (w_file w) e
         end.
Proof.
  intros json_loads json_dumps create disk stdout_encodes p model w Hne Hstrip.
  destruct (load_history_summary json_loads w)
    as [tl [Hw0 [Hplain [Hcl [Hwl Hv]]]]].
  destruct (fst (load_history json_loads w)) as [v | e] eqn:Hfst.
  2: { rewrite (one_shot_path_load_raises json_loads json_dumps create disk
                  stdout_encodes p model _ _ _
                  (load_history_split_raise _ _ _ Hfst)).
       simpl fst. simpl snd. rewrite Hw0. exists tl. simpl.
       split; [reflexivity |].
       split; [apply call_ok_not_create; exact Hplain |].
       split; [lia |]. split; [lia |].
       destruct Hv as [-> Hf]. right. right. left. auto. }
  assert (Hload := load_history_split _ _ _ Hfst). rewrite Hw0 in Hload.
  rewrite (one_shot_path_turn json_loads json_dumps create disk
             stdout_encodes p model _ _ _ Hload).
  assert (Hbad : (forall l, v <> PList l) ->
                 bad_end json_loads (w_file w) AttributeError).
  { intros Hnl. right. right. right. split; [reflexivity |].
    destruct Hv as [-> | [s [Hf Hs]]]; [exfalso; apply (Hnl []); reflexivity |].
    exists s, v. auto. }
  destruct v as [| b | n | r | s | items | items];
    try (exists tl; simpl; repeat split; auto;
         [apply call_ok_not_create; exact Hplain | lia | lia
         | apply Hbad; intros l; discriminate]).
  unfold py_append. cbv beta iota zeta.
  assert (Hshape :
    call_ok model
      (E_create model (PList (last_n 60 (items ++ [turn "user" p]))))).
  { simpl. split; [reflexivity |]. apply sent_shape_turn; assumption. }
  assert (Hcall :
    exists t,
      (w_trace w ++ tl) ++
        [E_create model (PList (last_n 60 (items ++ [turn "user" p])))]
      = w_trace w ++ t
      /\ Forall (call_ok model) t
      /\ count_creates t <= 1
      /\ count_writes t <= count_creates t).
  { exists (tl ++ [E_create model
                     (PList (last_n 60 (items ++ [turn "user" p])))]).
    split; [rewrite app_assoc; reflexivity |].
    split; [apply Forall_app; split;
            [apply call_ok_not_create; exact Hplain |
             apply Forall_cons; [exact Hshape |]; plain_events] |].
    rewrite count_creates_app, count_writes_app, Hcl, Hwl.
    unfold count_creates, count_writes. simpl. lia. }
  destruct (create (count_creates (w_trace w)) model _) as [text |].
  2: { simpl fst. simpl snd. simpl w_trace.
       destruct Hcall as [t [Ht [Hok [Hc Hw]]]].
       exists t. repeat split; auto. left. reflexivity. }
  destruct (encodable stdout_encodes (strip text)).
  2: { simpl fst. simpl snd. simpl w_trace.
       destruct Hcall as [t [Ht [Hok [Hc Hw]]]].
       exists t. repeat split; auto. right. left. reflexivity. }
  simpl fst. simpl snd.
  destruct (save_history_adds json_dumps disk
              (PList (last_n 60 (items ++ [turn "user" p])
                      ++ [turn "assistant" (strip text)]))
              (log (E_print (strip text))
                 (log (E_create model
                         (PList (last_n 60 (items ++ [turn "user" p]))))
                    (mkWorld (w_file w) (w_trace w ++ tl)))))
    as [ts [Hts [Hnc [Hw Hall]]]].
  exists (tl ++ [E_create model
                   (PList (last_n 60 (items ++ [turn "user" p])));
                 E_print (strip text)] ++ ts).
  split; [| split; [| split; [| split]]].
  - rewrite Hts. simpl. rewrite <- !app_assoc. reflexivity.
  - apply Forall_app. split; [apply call_ok_not_create; exact Hplain |].
    apply Forall_app. split; [| apply call_ok_not_create; exact Hall].
    apply Forall_cons; [exact Hshape |]. plain_events.
  - rewrite !count_creates_app, Hcl. unfold count_creates at 2.
    rewrite Hnc. simpl. lia.
  - rewrite !count_writes_app, !count_creates_app, Hcl, Hwl.
    unfold count_creates at 2. rewrite Hnc. unfold count_writes. simpl.
    lia.
  - exact I.
Qed.

Lemma interactive_path_closed :
  forall json_loads json_dumps create disk stdout_encodes inv model w v w0,
    load_history json_loads w = (Ret v, w0) ->
    interactive_path json_loads json_dumps create disk stdout_encodes inv
      model w =
      match repl_loop json_dumps create disk stdout_encodes (stdin_lines inv)
              v model
              (log (E_print
                  "Welcome to the terminal of GPT (to quit -> 'exit')")
                 w0)
      with
      | (Ret _, w') => (Ret tt, w')
      | (Raise e, w') => (Raise e, w')
      end.
Proof.
  intros json_loads json_dumps create disk stdout_encodes inv model w v w0
    Hload.
  unfold interactive_path, bind at 1. rewrite Hload.
  unfold bind at 1, repl, bind at 1. rewrite print_ascii by reflexivity.
  destruct (repl_loop json_dumps create disk stdout_encodes (stdin_lines inv)
              v model _)
    as [[h | e] w']; reflexivity.
Qed.

Lemma interactive_path_summary :
  forall json_loads json_dumps create disk stdout_encodes inv model w,
    exists t,
      w_trace (snd (interactive_path json_loads json_dumps create disk
                      stdout_encodes inv model w))
        = w_trace w ++ t
      /\ Forall (call_ok model) t
      /\ count_creates t <= List.length (stdin_lines inv)
      /\ count_writes t <= count_creates t
      /\ match fst (interactive_path json_loads json_dumps create disk
                      stdout_encodes inv model w)
         with
         | Ret _ => True
         | Raise e => bad_end json_loads (w_file w) e
         end.
Proof.
  intros json_loads json_dumps create disk stdout_encodes inv model w.
  destruct (load_history_summary json_loads w)
    as [tl [Hw0 [Hplain [Hcl [Hwl Hv]]]]].
  destruct (fst (load_history json_loads w)) as [v | e] eqn:Hfst.
  2: { rewrite (interactive_path_load_raises json_loads json_dumps create
                  disk stdout_encodes inv model _ _ _
                  (load_history_split_raise _ _ _ Hfst)).
       simpl fst. simpl snd. rewrite Hw0. exists tl. simpl.
       split; [reflexivity |].
       split; [apply call_ok_not_create; exact Hplain |].
       split; [lia |]. split; [lia |].
       destruct Hv as [-> Hf]. right. right. left. auto. }
  assert (Hload := load_history_split _ _ _ Hfst). rewrite Hw0 in Hload.
  rewrite (interactive_path_closed json_loads json_dumps create disk
             stdout_encodes inv model _ _ _ Hload).
  destruct (repl_loop_summary json_dumps create disk stdout_encodes
              (stdin_lines inv) v model
              (log (E_print
                  "Welcome to the terminal of GPT (to quit -> 'exit')")
                 (mkWorld (w_file w) (w_trace w ++ tl))))
    as [t [Ht [Hok [Hc [Hw Hr]]]]].
  destruct (repl_loop json_dumps create disk stdout_encodes (stdin_lines inv)
              v model _)
    as [[h | e] w'] eqn:Hloop; simpl in Ht, Hr; simpl fst; simpl snd.
  - exists (tl ++ [E_print "Welcome to the terminal of GPT (to quit -> 'exit')"]
              ++ t).
    split; [| split; [| split; [| split]]].
    + rewrite Ht, <- !app_assoc. reflexivity.
    + apply Forall_app. split; [apply call_ok_not_create; exact Hplain |].
      apply Forall_cons; [exact I | exact Hok].
    + rewrite !count_creates_app, Hcl. simpl. exact Hc.
    + rewrite !count_writes_app, !count_creates_app, Hcl, Hwl. simpl.
      exact Hw.
    + exact I.
  - exists (tl ++ [E_print "Welcome to the terminal of GPT (to quit -> 'exit')"]
              ++ t).
    split; [| split; [| split; [| split]]].
    + rewrite Ht, <- !app_assoc. reflexivity.
    + apply Forall_app. split; [apply call_ok_not_create; exact Hplain |].
      apply Forall_cons; [exact I | exact Hok].
    + rewrite !count_creates_app, Hcl. simpl. exact Hc.
    + rewrite !count_writes_app, !count_creates_app, Hcl, Hwl. simpl.
      exact Hw.
    + destruct Hr as [He | [He | [He Hnl]]];
        [left; exact He | right; left; exact He |].
      right. right. right. split; [exact He |].
      destruct Hv as [-> | [s [Hf Hs]]];
        [exfalso; apply (Hnl []); reflexivity |].
      exists s, v. auto.
Qed.

Lemma not_set_no_key :
  forall inv, not_set (getenv inv "OPENAI_API_KEY") = true -> ~ key_set inv.
Proof.
  intros inv H Hkey. rewrite (key_set_not_set inv Hkey) in H. discriminate.
Qed.

(** What a whole run does: what it adds to the trace, how many remote
    calls and writes it makes, and how it can end. *)
Lemma main_summary :
  forall json_loads json_dumps create disk removable stdout_encodes inv w,
    exists t,
      w_trace (snd (main json_loads json_dumps create disk removable
                      stdout_encodes inv w))
        = w_trace w ++ t
      /\ Forall (call_ok (model_of inv)) t
      /\ count_creates t
         <= (if is_empty (prompt_of inv)
             then List.length (stdin_lines inv) else 1)
      /\ count_writes t <= count_creates t
      /\ match fst (main json_loads json_dumps create disk removable
                      stdout_encodes inv w) with
         | Ret _ => True
         | Raise e =>
             (e = SystemExit 1 /\ ~ key_set inv)
             \/ (e = SystemExit 2
                 /\ key_set inv /\ prompt_of inv = ""
                 /\ stdin_isatty inv = false)
             \/ (e = OSError
                 /\ key_set inv /\ prompt_of inv = "--reset"
                 /\ unlink_succeeds removable w = false)
             \/ (key_set inv /\ prompt_of inv <> "--reset"
                 /\ bad_end json_loads (w_file w) e)
         end.
Proof.
  intros json_loads json_dumps create disk removable stdout_encodes inv w.
  destruct (prompt_events_plain inv) as [Hpp [Hpc Hpw]].
  destruct (not_set (getenv inv "OPENAI_API_KEY")) eqn:Hk.
  { rewrite main_no_key by assumption. eexists. split; [reflexivity |].
    simpl. unfold count_creates, count_writes. simpl.
    split; [plain_events |]. split; [lia |]. split; [lia |].
    left. split; [reflexivity | apply not_set_no_key; exact Hk]. }
  apply key_not_set_key_set in Hk.
  destruct (string_dec (prompt_of inv) "--reset") as [Hreset | Hreset].
  { assert (Hget := get_prompt_closed inv w). rewrite Hreset in Hget.
    rewrite (main_reset json_loads json_dumps create disk removable
               stdout_encodes inv w _ Hk Hget).
    assert (Hsame :
      unlink_succeeds removable
        (mkWorld (w_file w) (w_trace w ++ prompt_events inv))
      = unlink_succeeds removable w).
    { unfold unlink_succeeds. simpl. rewrite count_unlinks_prompt.
      reflexivity. }
    rewrite Hsame, Hreset. simpl is_empty. cbv iota.
    destruct (unlink_succeeds removable w) eqn:Hun; simpl fst; simpl snd.
    - exists (prompt_events inv ++ [E_unlink; E_print "History cleared."]).
      split; [simpl; rewrite app_assoc; reflexivity |].
      split; [apply Forall_app; split;
              [apply call_ok_not_create; exact Hpp | plain_events] |].
      rewrite count_creates_app, count_writes_app, Hpc, Hpw.
      unfold count_creates, count_writes. simpl.
      split; [lia |]. split; [lia | exact I].
    - exists (prompt_events inv ++ [E_unlink]).
      split; [simpl; rewrite app_assoc; reflexivity |].
      split; [apply Forall_app; split;
              [apply call_ok_not_create; exact Hpp | plain_events] |].
      rewrite count_creates_app, count_writes_app, Hpc, Hpw.
      unfold count_creates, count_writes. simpl.
      split; [lia |]. split; [lia |].
      right. right. left. auto. }
  destruct (string_dec (prompt_of inv) "") as [Hempty | Hne].
  - destruct (stdin_isatty inv) eqn:Htty.
    + rewrite main_interactive_closed by assumption.
      destruct (interactive_path_summary json_loads json_dumps create disk
                  stdout_encodes inv (model_of inv)
                  (mkWorld (w_file w)
                     (w_trace w ++ prompt_events inv ++ [E_OpenAI; E_isatty])))
        as [t [Ht [Hok [Hc [Hw Hr]]]]].
      exists ((prompt_events inv ++ [E_OpenAI; E_isatty]) ++ t).
      rewrite Hempty. simpl is_empty. cbv iota.
      split; [rewrite Ht; simpl; rewrite <- !app_assoc; reflexivity |].
      split; [apply Forall_app; split; [| exact Hok];
              apply Forall_app; split;
              [apply call_ok_not_create; exact Hpp | plain_events] |].
      rewrite !count_creates_app, !count_writes_app, Hpc, Hpw.
      unfold count_creates at 1, count_writes at 1. simpl.
      split; [exact Hc |]. split; [exact Hw |].
      destruct (fst (interactive_path _ _ _ _ _ _ _ _)); [exact I |].
      right. right. right.
      split; [exact Hk |]. split; [discriminate | exact Hr].
    + assert (Hget := get_prompt_closed inv w). rewrite Hempty in Hget.
      rewrite (main_usage json_loads json_dumps create disk removable
                 stdout_encodes inv w _ Hk Hget Htty).
      exists (prompt_events inv ++ [E_OpenAI; E_isatty] ++ usage_lines).
      rewrite Hempty. simpl.
      split; [rewrite <- app_assoc; reflexivity |].
      split; [apply Forall_app; split;
              [apply call_ok_not_create; exact Hpp | plain_events] |].
      rewrite count_creates_app, count_writes_app, Hpc, Hpw.
      unfold count_creates, count_writes. simpl.
      split; [lia |]. split; [lia |].
      right. left. auto.
  - rewrite main_one_shot_closed by assumption.
    assert (Hstrip : strip (prompt_of inv) = prompt_of inv).
    { unfold prompt_of. destruct (arguments inv).
      - destruct (stdin_isatty inv); [reflexivity | apply strip_idempotent].
      - apply strip_idempotent. }
    destruct (one_shot_path_summary json_loads json_dumps create disk
                stdout_encodes (prompt_of inv) (model_of inv)
                (mkWorld (w_file w)
                   (w_trace w ++ prompt_events inv ++ [E_OpenAI]))
                Hne Hstrip)
      as [t [Ht [Hok [Hc [Hw Hr]]]]].
    exists ((prompt_events inv ++ [E_OpenAI]) ++ t).
    destruct (prompt_of inv) as [| c p] eqn:Hp; [congruence |].
    simpl is_empty. cbv iota.
    split; [rewrite Ht; simpl; rewrite <- !app_assoc; reflexivity |].
    split; [apply Forall_app; split; [| exact Hok];
            apply Forall_app; split;
            [apply call_ok_not_create; exact Hpp | plain_events] |].
    rewrite !count_creates_app, !count_writes_app, Hpc, Hpw.
    unfold count_creates at 1, count_writes at 1. simpl.
    split; [exact Hc |]. split; [exact Hw |].
    destruct (fst (one_shot_path _ _ _ _ _ _ _ _)); [exact I |].
    right. right. right.
    split; [exact Hk |]. split; [exact Hreset | exact Hr].
Qed.

(** X5: every remote call of a run names the model [main] chose
    (OPENAI_MODEL, or the default when it is unset) and sends a list that
    ends with the user turn of a prompt that is stripped and not empty,
    after fewer than 60 earlier entries: at most 60 entries in all, in
    the interactive loop as on the one-shot path. *)
Theorem remote_calls_are_capped :
  forall json_loads json_dumps create disk removable stdout_encodes inv w,
    exists t,
      w_trace (snd (main json_loads json_dumps create disk removable
          stdout_encodes inv w))
        = w_trace w ++ t
      /\ forall m v,
           In (E_create m v) t ->
           m = model_of inv
           /\ exists before p,
                v = PList (before ++ [turn "user" p])
                /\ List.length before < 60
                /\ p <> ""
                /\ strip p = p.
Proof.
  intros json_loads json_dumps create disk removable stdout_encodes inv w.
  destruct (main_summary json_loads json_dumps create disk removable
      stdout_encodes inv w)
    as [t [Ht [Hok _]]].
  exists t. split; [exact Ht |].
  intros m v Hin. rewrite Forall_forall in Hok.
  exact (Hok _ Hin).
Qed.

Lemma remote_calls_are_capped_witness :
  "my-model" = "my-model"
  /\ exists before p,
       PList (skipn 1 (exchanges 30) ++ [turn "user" "hello"])
         = PList (before ++ [turn "user" p])
       /\ List.length before < 60
       /\ p <> ""
       /\ strip p = p.
Proof.
  destruct (remote_calls_are_capped (loads_among [PList (exchanges 30)])
              dumps_indent2 (answering "ok") disk_ok can_remove stdout_utf8
              (mkInvocation ["chatgpt"; " hello "]
                 (fun name =>
                    if String.eqb name "OPENAI_MODEL" then Some "my-model"
                    else env_with_key name)
                 true [])
              (fresh (Text (encode 0 (PList (exchanges 30))))))
    as [t [Ht Hcalls]].
  apply (Hcalls "my-model"
           (PList (skipn 1 (exchanges 30) ++ [turn "user" "hello"]))).
  vm_compute in Ht. subst t. simpl. tauto.
Defined.

(** X6: a run makes at most one remote call when it has a prompt (the
    one-shot path) and at most one per line of input when it has none
    (the interactive loop); there are no retries. *)
Theorem calls_at_most_one_per_prompt :
  forall json_loads json_dumps create disk removable stdout_encodes inv w,
    exists t,
      w_trace (snd (main json_loads json_dumps create disk removable
          stdout_encodes inv w))
        = w_trace w ++ t
      /\ count_creates t
         <= (if is_empty (prompt_of inv)
             then List.length (stdin_lines inv) else 1).
Proof.
  intros json_loads json_dumps create disk removable stdout_encodes inv w.
  destruct (main_summary json_loads json_dumps create disk removable
      stdout_encodes inv w)
    as [t [Ht [_ [Hc _]]]].
  exists t. auto.
Qed.

(** X7: a run never writes the history file more often than it calls the
    remote service: the only write is the one after an answer.  A run
    that makes no call (no key, usage, reset, a session of blank lines)
    writes nothing. *)
Theorem writes_at_most_one_per_call :
  forall json_loads json_dumps create disk removable stdout_encodes inv w,
    exists t,
      w_trace (snd (main json_loads json_dumps create disk removable
          stdout_encodes inv w))
        = w_trace w ++ t
      /\ count_writes t <= count_creates t.
Proof.
  intros json_loads json_dumps create disk removable stdout_encodes inv w.
  destruct (main_summary json_loads json_dumps create disk removable
      stdout_encodes inv w)
    as [t [Ht [_ [_ [Hw _]]]]].
  exists t. auto.
Qed.

(** X8: the ways a run can end, when the standard input delivers text
    and the standard streams take what is written to them (apart from the
    characters of an answer that the encoding of the standard output
    lacks).  [main] returns; or exits with status 1 because the key is not set; or exits
    with status 2 because there is no prompt and the standard input is
    not a terminal; or dies of the OSError of the unlink of a reset; or
    of the OSError of [exists] on a history path that cannot be checked;
    or of the exception of a failed remote call; or of the
    UnicodeEncodeError of printing an answer; or of the AttributeError
    that [append] raises when the history file parsed to something that
    is not a list.  Nothing else escapes: an unreadable or unparsable
    history file, a failed write of it and the end of the input never end
    the run. *)
Theorem main_ends :
  forall json_loads json_dumps create disk removable stdout_encodes inv w,
    let r := fst (main json_loads json_dumps create disk removable
                    stdout_encodes inv w) in
    r = Ret tt
    \/ (r = Raise (SystemExit 1) /\ ~ key_set inv)
    \/ (r = Raise (SystemExit 2)
        /\ key_set inv /\ prompt_of inv = "" /\ stdin_isatty inv = false)
    \/ (r = Raise OSError
        /\ key_set inv /\ prompt_of inv = "--reset"
        /\ unlink_succeeds removable w = false)
    \/ (r = Raise OSError
        /\ key_set inv /\ prompt_of inv <> "--reset"
        /\ w_file w = Inaccessible)
    \/ (r = Raise APIError /\ key_set inv)
    \/ (r = Raise UnicodeEncodeError /\ key_set inv)
    \/ (r = Raise AttributeError
        /\ key_set inv
        /\ exists s v,
             w_file w = Text s /\ json_loads s = Some v
             /\ forall l, v <> PList l).
Proof.
  intros json_loads json_dumps create disk removable stdout_encodes inv w r.
  destruct (main_summary json_loads json_dumps create disk removable
              stdout_encodes inv w)
    as [t [_ [_ [_ [_ Hr]]]]].
  fold r in Hr. destruct r as [[] | e]; [left; reflexivity | right].
  unfold bad_end in Hr.
  destruct Hr as [[-> Hk] | [[-> Hu] | [[-> Hun] | [Hk [Hp Hbad]]]]].
  - left. auto.
  - right. left. auto.
  - right. right. left. auto.
  - right. right. right.
    destruct Hbad as [-> | [-> | [[-> Hf] | [-> Hnl]]]].
    + right. left. auto.
    + right. right. left. auto.
    + left. auto.
    + right. right. right. auto.
Qed.

(** X9: however long the session and whatever the transcript it started
    with, the transcript the loop ends with is either the one it started
    with (no turn was completed) or a list of between 2 and 61 entries. *)
Theorem repl_transcript_bounded :
  forall json_dumps create disk stdout_encodes lines history model w h w',
    repl_loop json_dumps create disk stdout_encodes lines history model w =
        (Ret h, w') ->
    h = history \/ exists l, h = PList l /\ 2 <= List.length l <= 61.
Proof.
  intros json_dumps create disk stdout_encodes lines history model w h w' Hloop.
  destruct (repl_loop_summary json_dumps create disk stdout_encodes lines
      history model w)
    as [t [_ [_ [_ [_ Hr]]]]].
  rewrite Hloop in Hr. exact Hr.
Qed.

Lemma repl_transcript_bounded_witness :
  PList (skipn 23 (exchanges 40)
         ++ [turn "user" "one"; turn "assistant" "ok";
             turn "user" "two"; turn "assistant" "ok"])
    = PList (exchanges 40)
  \/ exists l,
       PList (skipn 23 (exchanges 40)
              ++ [turn "user" "one"; turn "assistant" "ok";
                  turn "user" "two"; turn "assistant" "ok"]) = PList l
       /\ 2 <= List.length l <= 61.
Proof.
  apply (repl_transcript_bounded dumps_indent2 (answering "ok") disk_full
      stdout_utf8
           ["one"; ""; "two"] (PList (exchanges 40)) MODEL_DEFAULT
           (fresh Missing) _
           (snd (repl_loop dumps_indent2 (answering "ok") disk_full stdout_utf8
                   ["one"; ""; "two"] (PList (exchanges 40)) MODEL_DEFAULT
                   (fresh Missing)))).
  vm_compute. reflexivity.
Defined.

(** X10: in the interactive loop too a stored history that is not a list
    is used as it is: the first line that is neither blank nor a command
    to leave ends the session with the AttributeError of [append], after
    the [input] alone, without a remote call or a write. *)
Theorem repl_non_list_history :
  forall json_dumps create disk stdout_encodes line rest history model w,
    strip line <> "" ->
    existsb (String.eqb (lower (strip line))) ["exit"; "quit"] = false ->
    (forall l, history <> PList l) ->
    repl_loop json_dumps create disk stdout_encodes (line :: rest) history
        model w =
      (Raise AttributeError, log (E_input "> ") w).
Proof.
  intros json_dumps create disk stdout_encodes line rest history model w Hne
      Hcmd Hnl.
  rewrite repl_loop_cons.
  rewrite (repl_iteration_turn json_dumps create disk stdout_encodes) by
      assumption.
  destruct history; try reflexivity.
  exfalso. apply (Hnl items). reflexivity.
Qed.

Lemma repl_non_list_history_witness :
  repl_loop dumps_indent2 (answering "ok") disk_ok stdout_utf8 ["hello";
      "again"]
    (PDict [("role", PStr "user")]) MODEL_DEFAULT (fresh (Text "{}")) =
  (Raise AttributeError, mkWorld (Text "{}") [E_input "> "]).
Proof.
  apply (repl_non_list_history dumps_indent2 (answering "ok") disk_ok
      stdout_utf8
           "hello" ["again"] (PDict [("role", PStr "user")]) MODEL_DEFAULT
           (fresh (Text "{}"))).
  - discriminate.
  - reflexivity.
  - intros l. discriminate.
Defined.

(** ** From one run to the next *)

Lemma load_history_value :
  forall json_loads w1 w2,
    w_file w1 = w_file w2 ->
    fst (load_history json_loads w1) = fst (load_history json_loads w2).
Proof.
  intros json_loads w1 w2 Hfile. rewrite !load_history_cases, Hfile.
  destruct (w_file w2); reflexivity.
Qed.

(** The one-shot path sends the loaded list with the user turn. *)
Lemma one_shot_path_sends :
  forall json_loads json_dumps create disk stdout_encodes p model w items,
    fst (load_history json_loads w) = Ret (PList items) ->
    In (E_create model (PList (last_n 60 (items ++ [turn "user" p]))))
       (w_trace (snd (one_shot_path json_loads json_dumps create disk
                        stdout_encodes p model w))).
Proof.
  intros json_loads json_dumps create disk stdout_encodes p model w items
    Hload.
  rewrite (one_shot_path_turn json_loads json_dumps create disk
             stdout_encodes p model _ _ _ (load_history_split _ _ _ Hload)).
  unfold py_append. cbv beta iota zeta.
  destruct (create _ _ _) as [text |];
    [destruct (encodable stdout_encodes (strip text)) |];
    simpl fst; simpl snd.
  - apply save_history_trace. simpl. rewrite !in_app_iff. simpl. tauto.
  - simpl. rewrite !in_app_iff. simpl. tauto.
  - simpl. rewrite !in_app_iff. simpl. tauto.
Qed.

(** On an answer that can be printed, with [json.dumps] and the disk
    willing, the one-shot path returns and leaves the new transcript in
    the file. *)
Lemma one_shot_path_saves :
  forall json_loads json_dumps create disk stdout_encodes p model w items
         text s,
    fst (load_history json_loads w) = Ret (PList items) ->
    create (count_creates (w_trace w)) model
      (PList (last_n 60 (items ++ [turn "user" p]))) = Some text ->
    encodable stdout_encodes (strip text) = true ->
    json_dumps (PList (last_n 60 (items ++ [turn "user" p])
                       ++ [turn "assistant" (strip text)])) = Some s ->
    disk (count_writes (w_trace w)) = Written ->
    fst (one_shot_path json_loads json_dumps create disk stdout_encodes p
           model w) = Ret tt
    /\ w_file (snd (one_shot_path json_loads json_dumps create disk
                      stdout_encodes p model w))
       = Text s.
Proof.
  intros json_loads json_dumps create disk stdout_encodes p model w items
    text s Hload Hcreate Hprint Hdumps Hdisk.
  assert (Hsplit := load_history_split _ _ _ Hload).
  destruct (load_history_frame _ _ _ _ Hsplit) as [_ [_ Hw0]].
  rewrite (one_shot_path_turn json_loads json_dumps create disk
             stdout_encodes p model _ _ _ Hsplit).
  unfold py_append. cbv beta iota zeta. rewrite Hcreate, Hprint.
  split; [reflexivity |].
  simpl snd. rewrite save_history_cases, Hdumps.
  rewrite !count_writes_log by reflexivity. rewrite Hw0, Hdisk.
  reflexivity.
Qed.

Lemma one_shot_world_counts :
  forall inv w,
    count_creates (w_trace w ++ prompt_events inv ++ [E_OpenAI])
      = count_creates (w_trace w)
    /\ count_writes (w_trace w ++ prompt_events inv ++ [E_OpenAI])
       = count_writes (w_trace w).
Proof.
  intros inv w. destruct (prompt_events_plain inv) as [_ [Hc Hw]].
  rewrite !count_creates_app, !count_writes_app, Hc, Hw.
  unfold count_creates, count_writes. simpl. lia.
Qed.

Lemma main_one_shot_sends :
  forall json_loads json_dumps create disk removable stdout_encodes inv w
         items,
    key_set inv ->
    prompt_of inv <> "" -> prompt_of inv <> "--reset" ->
    fst (load_history json_loads w) = Ret (PList items) ->
    In (E_create (model_of inv)
          (PList (last_n 60 (items ++ [turn "user" (prompt_of inv)]))))
       (w_trace (snd (main json_loads json_dumps create disk removable
                        stdout_encodes inv w))).
Proof.
  intros json_loads json_dumps create disk removable stdout_encodes inv w
    items Hkey Hne Hreset Hload.
  rewrite main_one_shot_closed by assumption.
  apply one_shot_path_sends.
  rewrite <- Hload. apply load_history_value. reflexivity.
Qed.

Lemma main_one_shot_saves :
  forall json_loads json_dumps create disk removable stdout_encodes inv w
         items text s,
    key_set inv ->
    prompt_of inv <> "" -> prompt_of inv <> "--reset" ->
    fst (load_history json_loads w) = Ret (PList items) ->
    create (count_creates (w_trace w)) (model_of inv)
      (PList (last_n 60 (items ++ [turn "user" (prompt_of inv)])))
      = Some text ->
    encodable stdout_encodes (strip text) = true ->
    json_dumps (PList (last_n 60 (items ++ [turn "user" (prompt_of inv)])
                       ++ [turn "assistant" (strip text)])) = Some s ->
    disk (count_writes (w_trace w)) = Written ->
    fst (main json_loads json_dumps create disk removable stdout_encodes
           inv w) = Ret tt
    /\ w_file (snd (main json_loads json_dumps create disk removable
                      stdout_encodes inv w)) = Text s.
Proof.
  intros json_loads json_dumps create disk removable stdout_encodes inv w
    items text s Hkey Hne Hreset Hload Hcreate Hprint Hdumps Hdisk.
  rewrite main_one_shot_closed by assumption.
  destruct (one_shot_world_counts inv w) as [Hc Hw].
  apply one_shot_path_saves with (items := items) (text := text).
  - rewrite <- Hload. apply load_history_value. reflexivity.
  - simpl w_trace. rewrite Hc. exact Hcreate.
  - exact Hprint.
  - exact Hdumps.
  - simpl w_trace. rewrite Hw. exact Hdisk.
Qed.

(** X11: what [save_history] wrote is what [load_history] returns next:
    when the write succeeds and [json.loads] gives back the value that
    [json.dumps] encoded, loading after saving returns the transcript
    that was saved. *)
Theorem save_then_load :
  forall json_loads json_dumps disk history w s,
    json_dumps history = Some s ->
    json_loads s = Some history ->
    disk (count_writes (w_trace w)) = Written ->
    fst (load_history json_loads
           (snd (save_history json_dumps disk history w))) = Ret history.
Proof.
  intros json_loads json_dumps disk history w s Hdumps Hloads Hdisk.
  rewrite save_history_cases, Hdumps, Hdisk. simpl snd.
  rewrite load_history_cases. simpl w_file. cbv beta iota.
  rewrite Hloads. reflexivity.
Qed.

Lemma save_then_load_witness :
  fst (load_history (loads_among [PList (exchanges 2)])
         (snd (save_history dumps_indent2 disk_ok (PList (exchanges 2))
                 (fresh Missing)))) = Ret (PList (exchanges 2)).
Proof.
  apply (save_then_load (loads_among [PList (exchanges 2)]) dumps_indent2
           disk_ok (PList (exchanges 2)) (fresh Missing)
           (encode 0 (PList (exchanges 2)))); reflexivity.
Defined.

(** X12: the conversation carries over from one run to the next.  After
    a one-shot run that got an answer, printed it and saved it, the next
    one-shot run sends the transcript the first one kept (what it sent,
    then the assistant turn) with the new user turn appended, cut to its
    last 60 entries. *)
Theorem one_shot_runs_chain :
  forall json_loads json_dumps create disk removable stdout_encodes inv1 inv2
         w items text s,
    key_set inv1 ->
    prompt_of inv1 <> "" -> prompt_of inv1 <> "--reset" ->
    key_set inv2 ->
    prompt_of inv2 <> "" -> prompt_of inv2 <> "--reset" ->
    fst (load_history json_loads w) = Ret (PList items) ->
    create (count_creates (w_trace w)) (model_of inv1)
      (PList (last_n 60 (items ++ [turn "user" (prompt_of inv1)])))
      = Some text ->
    encodable stdout_encodes (strip text) = true ->
    let kept := last_n 60 (items ++ [turn "user" (prompt_of inv1)])
                ++ [turn "assistant" (strip text)] in
    json_dumps (PList kept) = Some s ->
    json_loads s = Some (PList kept) ->
    disk (count_writes (w_trace w)) = Written ->
    In (E_create (model_of inv2)
          (PList (last_n 60 (kept ++ [turn "user" (prompt_of inv2)]))))
       (w_trace
          (snd (main json_loads json_dumps create disk removable
                  stdout_encodes inv2
                  (snd (main json_loads json_dumps create disk removable
                          stdout_encodes inv1 w))))).
Proof.
  intros json_loads json_dumps create disk removable stdout_encodes inv1 inv2
    w items text s Hkey1 Hne1 Hreset1 Hkey2 Hne2 Hreset2 Hload Hcreate Hprint
    kept Hdumps Hloads Hdisk.
  destruct (main_one_shot_saves json_loads json_dumps create disk removable
              stdout_encodes inv1 w items text s Hkey1 Hne1 Hreset1 Hload
              Hcreate Hprint Hdumps Hdisk)
    as [_ Hfile].
  apply main_one_shot_sends; try assumption.
  rewrite load_history_cases, Hfile. cbv beta iota. rewrite Hloads.
  reflexivity.
Qed.

Lemma one_shot_runs_chain_witness :
  In (E_create MODEL_DEFAULT
        (PList [turn "user" "first"; turn "assistant" "ok";
                turn "user" "second"]))
     (w_trace
        (snd (main
                (loads_among [PList [turn "user" "first";
                                     turn "assistant" "ok"]])
                dumps_indent2 (answering "ok") disk_ok can_remove stdout_utf8
                (mkInvocation ["chatgpt"; "second"] env_with_key true [])
                (snd (main
                        (loads_among [PList [turn "user" "first";
                                             turn "assistant" "ok"]])
                        dumps_indent2 (answering "ok") disk_ok can_remove
                        stdout_utf8
                        (mkInvocation ["chatgpt"; "first"] env_with_key true [])
                        (fresh Missing)))))).
Proof.
  apply (one_shot_runs_chain
           (loads_among [PList [turn "user" "first"; turn "assistant" "ok"]])
           dumps_indent2 (answering "ok") disk_ok can_remove stdout_utf8
           (mkInvocation ["chatgpt"; "first"] env_with_key true [])
           (mkInvocation ["chatgpt"; "second"] env_with_key true [])
           (fresh Missing) [] "ok"
           (encode 0 (PList [turn "user" "first"; turn "assistant" "ok"])));
    try reflexivity; try discriminate;
    exists "sk-test"; (split; [reflexivity | discriminate]).
Defined.

(** X13: after a reset that went through the next run starts from
    nothing: when the unlink of a "--reset" run did not raise, a one-shot
    run that follows sends the new user turn alone. *)
Theorem reset_then_one_shot :
  forall json_loads json_dumps create disk removable stdout_encodes inv1 inv2
         w,
    key_set inv1 ->
    prompt_of inv1 = "--reset" ->
    unlink_succeeds removable w = true ->
    key_set inv2 ->
    prompt_of inv2 <> "" -> prompt_of inv2 <> "--reset" ->
    fst (main json_loads json_dumps create disk removable stdout_encodes
           inv1 w) = Ret tt
    /\ In (E_create (model_of inv2) (PList [turn "user" (prompt_of inv2)]))
          (w_trace
             (snd (main json_loads json_dumps create disk removable
                     stdout_encodes inv2
                     (snd (main json_loads json_dumps create disk removable
                             stdout_encodes inv1 w))))).
Proof.
  intros json_loads json_dumps create disk removable stdout_encodes inv1 inv2
    w Hkey1 Hp1 Hun Hkey2 Hne2 Hreset2.
  assert (Hget := get_prompt_closed inv1 w). rewrite Hp1 in Hget.
  rewrite (main_reset json_loads json_dumps create disk removable
             stdout_encodes inv1 w _ Hkey1 Hget).
  assert (Hsame :
    unlink_succeeds removable
      (mkWorld (w_file w) (w_trace w ++ prompt_events inv1))
    = unlink_succeeds removable w).
  { unfold unlink_succeeds. simpl. rewrite count_unlinks_prompt.
    reflexivity. }
  rewrite Hsame, Hun. split; [reflexivity |].
  apply (main_one_shot_sends json_loads json_dumps create disk removable
           stdout_encodes inv2 _ []);
    try assumption.
  reflexivity.
Qed.

Lemma reset_then_one_shot_witness :
  In (E_create MODEL_DEFAULT (PList [turn "user" "hello"]))
     (w_trace
        (snd (main (loads_among [PList (exchanges 3)]) dumps_indent2
                (answering "ok") disk_ok can_remove stdout_utf8
                (mkInvocation ["chatgpt"; "hello"] env_with_key true [])
                (snd (main (loads_among [PList (exchanges 3)]) dumps_indent2
                        (answering "ok") disk_ok can_remove stdout_utf8
                        (mkInvocation ["chatgpt"; "--reset"] env_with_key
                           true [])
                        (fresh (Text (encode 0 (PList (exchanges 3)))))))))).
Proof.
  apply (proj2 (reset_then_one_shot (loads_among [PList (exchanges 3)])
                  dumps_indent2 (answering "ok") disk_ok can_remove
                  stdout_utf8
                  (mkInvocation ["chatgpt"; "--reset"] env_with_key true [])
                  (mkInvocation ["chatgpt"; "hello"] env_with_key true [])
                  (fresh (Text (encode 0 (PList (exchanges 3)))))
                  ltac:(exists "sk-test"; split;
                        [reflexivity | discriminate])
                  eq_refl eq_refl
                  ltac:(exists "sk-test"; split;
                        [reflexivity | discriminate])
                  ltac:(discriminate) ltac:(discriminate))).
Defined.

(** X14: a history file that cannot be read or parsed is not kept: the
    run goes on from an empty transcript, and once the remote call has
    answered, the answer has been printed and the write succeeds, the
    file holds the new exchange alone, its old contents gone. *)
Theorem corrupt_history_is_replaced :
  forall json_loads json_dumps create disk removable stdout_encodes inv w
         text s,
    key_set inv ->
    prompt_of inv <> "" -> prompt_of inv <> "--reset" ->
    w_file w = Unreadable
    \/ (exists old, w_file w = Text old /\ json_loads old = None) ->
    create (count_creates (w_trace w)) (model_of inv)
      (PList [turn "user" (prompt_of inv)]) = Some text ->
    encodable stdout_encodes (strip text) = true ->
    json_dumps (PList [turn "user" (prompt_of inv);
                       turn "assistant" (strip text)]) = Some s ->
    disk (count_writes (w_trace w)) = Written ->
    fst (main json_loads json_dumps create disk removable stdout_encodes
           inv w) = Ret tt
    /\ w_file (snd (main json_loads json_dumps create disk removable
                      stdout_encodes inv w)) = Text s.
Proof.
  intros json_loads json_dumps create disk removable stdout_encodes inv w
    text s Hkey Hne Hreset Hcorrupt Hcreate Hprint Hdumps Hdisk.
  apply (main_one_shot_saves json_loads json_dumps create disk removable
           stdout_encodes inv w [] text s); try assumption.
  rewrite load_history_cases.
  destruct Hcorrupt as [-> | [old [-> Hbad]]]; [reflexivity |].
  rewrite Hbad. reflexivity.
Qed.

Lemma corrupt_history_is_replaced_witness :
  w_file
    (snd (main (loads_among [PList []]) dumps_indent2 (answering "ok") disk_ok
            can_remove stdout_utf8
            (mkInvocation ["chatgpt"; "hello"] env_with_key true [])
            (fresh (Text "[{broken"))))
  = Text (encode 0 (PList [turn "user" "hello"; turn "assistant" "ok"])).
Proof.
  apply (corrupt_history_is_replaced (loads_among [PList []]) dumps_indent2
           (answering "ok") disk_ok can_remove stdout_utf8
           (mkInvocation ["chatgpt"; "hello"] env_with_key true [])
           (fresh (Text "[{broken")) "ok"
           (encode 0 (PList [turn "user" "hello"; turn "assistant" "ok"])));
    try reflexivity; try discriminate.
  - exists "sk-test". split; [reflexivity | discriminate].
  - right. exists "[{broken". split; reflexivity.
Defined.

(** ** From one round to the next *)

Lemma repl_loop_keeps_trace :
  forall json_dumps create disk stdout_encodes lines history model w e,
    In e (w_trace w) ->
    In e (w_trace (snd (repl_loop json_dumps create disk stdout_encodes lines
                          history model w))).
Proof.
  intros json_dumps create disk stdout_encodes lines history model w e Hin.
  destruct (repl_loop_summary json_dumps create disk stdout_encodes lines
              history model w)
    as [t [Ht _]].
  rewrite Ht. apply in_or_app. left. exact Hin.
Qed.

(** X15: within a session the answer becomes context at once, saved or
    not: after a round that got an answer and printed it, the next round
    that reaches the remote service sends what the first one kept
    (whether or not the write of the history file succeeded) with the new
    user turn appended, cut to its last 60 entries. *)
Theorem repl_rounds_chain :
  forall json_dumps create disk stdout_encodes line1 line2 rest items model w
         text,
    strip line1 <> "" ->
    existsb (String.eqb (lower (strip line1))) ["exit"; "quit"] = false ->
    strip line2 <> "" ->
    existsb (String.eqb (lower (strip line2))) ["exit"; "quit"] = false ->
    create (count_creates (w_trace w)) model
      (PList (last_n 60 (items ++ [turn "user" (strip line1)])))
      = Some text ->
    encodable stdout_encodes (strip text) = true ->
    let kept := last_n 60 (items ++ [turn "user" (strip line1)])
                ++ [turn "assistant" (strip text)] in
    In (E_create model
          (PList (last_n 60 (kept ++ [turn "user" (strip line2)]))))
       (w_trace
          (snd (repl_loop json_dumps create disk stdout_encodes
                  (line1 :: line2 :: rest) (PList items) model w))).
Proof.
  intros json_dumps create disk stdout_encodes line1 line2 rest items model w
    text Hne1 Hcmd1 Hne2 Hcmd2 Hcreate Hprint kept.
  rewrite repl_loop_cons.
  rewrite (repl_iteration_turn json_dumps create disk stdout_encodes)
    by assumption.
  unfold py_append. cbv beta iota zeta. rewrite Hcreate, Hprint. fold kept.
  rewrite repl_loop_cons.
  rewrite (repl_iteration_turn json_dumps create disk stdout_encodes)
    by assumption.
  unfold py_append. cbv beta iota zeta.
  destruct (create _ model (PList (last_n 60 (kept ++ _)))) as [text2 |];
    [destruct (encodable stdout_encodes (strip text2)) |].
  - apply repl_loop_keeps_trace, save_history_trace.
    simpl. rewrite !in_app_iff. simpl. tauto.
  - simpl. rewrite !in_app_iff. simpl. tauto.
  - simpl. rewrite !in_app_iff. simpl. tauto.
Qed.

Lemma repl_rounds_chain_witness :
  In (E_create MODEL_DEFAULT
        (PList [turn "user" "first"; turn "assistant" "ok";
                turn "user" "second"]))
     (w_trace
        (snd (repl_loop dumps_indent2 (answering "ok") disk_full stdout_utf8
                ["first"; "second"; "exit"] (PList []) MODEL_DEFAULT
                (fresh Missing)))).
Proof.
  apply (repl_rounds_chain dumps_indent2 (answering "ok") disk_full
           stdout_utf8 "first" "second" ["exit"] [] MODEL_DEFAULT
           (fresh Missing) "ok");
    try reflexivity; discriminate.
Defined.

(** ** An answer that cannot be printed *)

(** X16: an answer that the standard output cannot encode ends the run at
    [print(answer)], between the remote call and the save: the
    UnicodeEncodeError is not caught, the status is 1, and nothing was
    printed or written; the remote call is the last thing the run did.
    In the interactive loop the lines that follow are not read. *)
Theorem unprintable_answer_aborts :
  forall json_loads json_dumps create disk removable stdout_encodes,
    (forall line rest items model w text,
       strip line <> "" ->
       existsb (String.eqb (lower (strip line))) ["exit"; "quit"] = false ->
       create (count_creates (w_trace w)) model
         (PList (last_n 60 (items ++ [turn "user" (strip line)])))
         = Some text ->
       encodable stdout_encodes (strip text) = false ->
       repl_loop json_dumps create disk stdout_encodes (line :: rest)
         (PList items) model w
       = (Raise UnicodeEncodeError,
          mkWorld (w_file w)
            (w_trace w
             ++ [E_input "> ";
                 E_create model
                   (PList (last_n 60
                             (items ++ [turn "user" (strip line)])))])))
    /\ (forall inv w items text,
          key_set inv ->
          prompt_of inv <> "" -> prompt_of inv <> "--reset" ->
          fst (load_history json_loads w) = Ret (PList items) ->
          create (count_creates (w_trace w)) (model_of inv)
            (PList (last_n 60 (items ++ [turn "user" (prompt_of inv)])))
            = Some text ->
          encodable stdout_encodes (strip text) = false ->
          let run := main json_loads json_dumps create disk removable
                       stdout_encodes inv w in
          fst run = Raise UnicodeEncodeError
          /\ exit_status (fst run) = 1%Z
          /\ w_file (snd run) = w_file w
          /\ count_writes (w_trace (snd run)) = count_writes (w_trace w)
          /\ filter is_report (w_trace (snd run))
             = filter is_report (w_trace w)
          /\ exists before,
               w_trace (snd run)
               = before
                 ++ [E_create (model_of inv)
                       (PList (last_n 60
                                 (items ++ [turn "user" (prompt_of inv)])))]).
Proof.
  intros json_loads json_dumps create disk removable stdout_encodes.
  split.
  - intros line rest items model w text Hne Hcmd Hcreate Hprint.
    rewrite repl_loop_cons.
    rewrite (repl_iteration_turn json_dumps create disk stdout_encodes)
      by assumption.
    unfold py_append. cbv beta iota zeta. rewrite Hcreate, Hprint.
    unfold log. simpl. rewrite <- app_assoc. reflexivity.
  - intros inv w items text Hkey Hne Hreset Hload Hcreate Hprint run.
    unfold run. rewrite main_one_shot_closed by assumption.
    destruct (one_shot_world_counts inv w) as [Hc Hw].
    set (w1 := mkWorld (w_file w)
                 (w_trace w ++ prompt_events inv ++ [E_OpenAI])).
    assert (Hload1 : fst (load_history json_loads w1) = Ret (PList items)).
    { rewrite <- Hload. apply load_history_value. reflexivity. }
    assert (Hsplit := load_history_split _ _ _ Hload1).
    destruct (load_history_summary json_loads w1) as [t [Ht [Hplain _]]].
    destruct (load_history_frame _ _ _ _ Hsplit) as [Hf0 [_ Hw0]].
    rewrite (one_shot_path_turn json_loads json_dumps create disk
               stdout_encodes (prompt_of inv) (model_of inv) _ _ _ Hsplit).
    unfold py_append. cbv beta iota zeta.
    change (w_trace w1) with (w_trace w ++ prompt_events inv ++ [E_OpenAI]).
    rewrite Hc, Hcreate, Hprint.
    split; [reflexivity |]. split; [reflexivity |].
    split; [exact Hf0 |]. split; [| split].
    + simpl snd. rewrite count_writes_log by reflexivity.
      rewrite Hw0. exact Hw.
    + simpl snd. rewrite load_history_cases. unfold w1. simpl w_file.
      assert (Hquiet : filter is_report (prompt_events inv) = []).
      { unfold prompt_events.
        destruct (arguments inv); [destruct (stdin_isatty inv) |];
          reflexivity. }
      destruct (w_file w); unfold log; simpl;
        rewrite !filter_app, Hquiet; simpl; rewrite ?app_nil_r;
        reflexivity.
    + simpl snd. eexists. reflexivity.
Qed.

Lemma unprintable_answer_aborts_witness :
  repl_loop dumps_indent2
    (answering (String.append "caf" (String (ascii_of_nat 233) "")))
    disk_ok stdout_ascii ["hello"; "again"] (PList []) MODEL_DEFAULT
    (fresh (Text "[]"))
  = (Raise UnicodeEncodeError,
     mkWorld (Text "[]")
       [E_input "> "; E_create MODEL_DEFAULT (PList [turn "user" "hello"])])
  /\ fst (main (loads_among [PList []]) dumps_indent2
            (answering (String.append "caf" (String (ascii_of_nat 233) "")))
            disk_ok can_remove stdout_ascii
            (mkInvocation ["chatgpt"; "hello"] env_with_key true [])
            (fresh (Text "[]")))
     = Raise UnicodeEncodeError
  /\ w_file
       (snd (main (loads_among [PList []]) dumps_indent2
               (answering
                  (String.append "caf" (String (ascii_of_nat 233) "")))
               disk_ok can_remove stdout_ascii
               (mkInvocation ["chatgpt"; "hello"] env_with_key true [])
               (fresh (Text "[]"))))
     = Text "[]".
Proof.
  split; [| split].
  - apply (proj1 (unprintable_answer_aborts (loads_among [PList []])
                    dumps_indent2
                    (answering
                       (String.append "caf" (String (ascii_of_nat 233) "")))
                    disk_ok can_remove stdout_ascii)
             "hello" ["again"] [] MODEL_DEFAULT (fresh (Text "[]"))
             (String.append "caf" (String (ascii_of_nat 233) "")));
      try reflexivity; discriminate.
  - apply (proj2 (unprintable_answer_aborts (loads_among [PList []])
                    dumps_indent2
                    (answering
                       (String.append "caf" (String (ascii_of_nat 233) "")))
                    disk_ok can_remove stdout_ascii)
             (mkInvocation ["chatgpt"; "hello"] env_with_key true [])
             (fresh (Text "[]")) []
             (String.append "caf" (String (ascii_of_nat 233) "")));
      try reflexivity; try discriminate.
    exists "sk-test". split; [reflexivity | discriminate].
  - apply (proj2 (unprintable_answer_aborts (loads_among [PList []])
                    dumps_indent2
                    (answering
                       (String.append "caf" (String (ascii_of_nat 233) "")))
                    disk_ok can_remove stdout_ascii)
             (mkInvocation ["chatgpt"; "hello"] env_with_key true [])
             (fresh (Text "[]")) []
             (String.append "caf" (String (ascii_of_nat 233) "")));
      try reflexivity; try discriminate.
    exists "sk-test". split; [reflexivity | discriminate].
Defined.
